(** * Korosho farmers-payment portal: batch lifecycle, two-factor
      authorization, verification / settlement simulators and ledger.

    A shallow embedding of the stateful core of [src/app.py].  The SQLite
    database is a record of tables (lists of rows in rowid order), the
    handlers are computations in a state-and-exception monad over a world
    made of the committed database, the random source and the clock, and the
    Dash client stores that carry a session are explicit records. *)

From Stdlib Require Import ZArith NArith List String Ascii Bool Lia.
From Stdlib Require Import PrimFloat Uint63.
From stdpp Require Import base option list gmap strings pretty.

Set Warnings "-inexact-float".
Local Open Scope Z_scope.

(** ** Python values and string helpers *)

(** A value held by a DataFrame cell or a DataTable record: [None]/NaN, a
    [str] or a number. *)
Inductive Cell :=
  | CNone
  | CStr (s : string)
  | CNum (x : float).

(** [cell == 'literal'] on a cell. *)
Definition cell_eq_str (c : Cell) (lit : string) : bool :=
  match c with
  | CStr s => String.eqb s lit
  | _ => false
  end.

(** [value == 'literal'] on a nullable TEXT column read back from SQLite. *)
Definition py_eq (v : option string) (lit : string) : bool :=
  match v with
  | Some s => String.eqb s lit
  | None => false
  end.

(** Truthiness of a nullable TEXT value: [None] and [''] are falsy. *)
Definition py_truthy (v : option string) : bool :=
  match v with
  | Some EmptyString | None => false
  | Some _ => true
  end.

(** Truthiness of a click counter: [None] and [0] are falsy. *)
Definition truthy_int (n : option Z) : bool :=
  match n with
  | Some k => negb (k =? 0)
  | None => false
  end.

(** [f"{v}"] for a nullable TEXT value. *)
Definition py_str (v : option string) : string :=
  match v with
  | Some s => s
  | None => "None"
  end.

(** [str.isspace] on the ASCII range: TAB..CR, FS..US and the space. *)
Definition py_isspace (c : ascii) : bool :=
  let n := nat_of_ascii c in
  ((9 <=? n)%nat && (n <=? 13)%nat) || ((28 <=? n)%nat && (n <=? 32)%nat).

(** [str.split()] with no separator: maximal runs of non-whitespace. *)
Fixpoint py_split_from (s : string) (tok : option string) : list string :=
  match s with
  | EmptyString => match tok with Some t => [t] | None => [] end
  | String c rest =>
      if py_isspace c then
        match tok with
        | Some t => t :: py_split_from rest None
        | None => py_split_from rest None
        end
      else
        py_split_from rest
          (Some (match tok with
                 | Some t => t +:+ String c EmptyString
                 | None => String c EmptyString
                 end))
  end.

Definition py_split (s : string) : list string := py_split_from s None.

Definition upper_ascii (c : ascii) : ascii :=
  let n := nat_of_ascii c in
  if ((97 <=? n)%nat && (n <=? 122)%nat) then ascii_of_nat (n - 32) else c.

(** [str.upper()] on the ASCII range. *)
Fixpoint py_upper (s : string) : string :=
  match s with
  | EmptyString => EmptyString
  | String c rest => String (upper_ascii c) (py_upper rest)
  end.

(** [f"{n}"] for an [int]. *)
Definition py_str_int (n : Z) : string := pretty n.

Fixpoint zeros (k : nat) : string :=
  match k with
  | O => EmptyString
  | S k' => String "0" (zeros k')
  end.

(** [f"{n:04d}"]: sign first, then zero padding up to a total width of 4. *)
Definition py_format_04d (n : Z) : string :=
  let digits := pretty (Z.abs_N n) in
  let sign := if n <? 0 then "-" else "" in
  let used := (String.length sign + String.length digits)%nat in
  sign +:+ zeros (4 - used) +:+ digits.

(** [float(n)] for a non-negative [int] below [2^63] (a [len], a draw). *)
Definition float_of_Z (n : Z) : float := PrimFloat.of_uint63 (Uint63.of_Z n).

(** [cooperative_name.split()[0].upper()]; [None] stands for the
    [IndexError] of a name without any token. *)
Definition coop_short (cooperative_name : string) : option string :=
  match py_split cooperative_name with
  | tok :: _ => Some (py_upper tok)
  | [] => None
  end.

(** ** Constants of the module *)

Definition VERIFICATION_STEPS : list string :=
  [ "Initiating Inter-Bank Verification API...";
    "Querying NBC Network for account status...";
    "Matching farmer details against bank records...";
    "Identifying and flagging inaccurate accounts...";
    "Verification Complete. Results updated." ].

Definition PAYMENT_STEPS : list string :=
  [ "Initiating Capital Pay secure engine...";
    "Pre-processing and validating verified data...";
    "Connecting to inter-bank payment gateway...";
    "Securely settling respective farmers' accounts...";
    "Transactions successful! Finalizing report..." ].

Definition COST_PER_ROW_USD : float := 1.50%float.
Definition EXCHANGE_RATE_TSH_TO_USD : Z := 2500.
Definition PAYMENT_COMMISSION_RATE : float := 0.025%float.

(** ** The random source and the clock *)

(** The generator is an oracle: an unbounded tape of raw draws and the
    number of draws consumed so far. *)
Record Rng := mkRng { entropy : nat -> N; drawn : nat }.

Definition next_draw (g : Rng) : N * Rng :=
  (entropy g (drawn g), mkRng (entropy g) (S (drawn g))).

(** [random.random()]: a 53-bit integer scaled into [0, 1). *)
Definition random_random (g : Rng) : float * Rng :=
  let '(k, g') := next_draw g in
  (PrimFloat.div (float_of_Z (Z.of_N k mod 9007199254740992))
                 9007199254740992%float, g').

(** [random.choice(seq)]: an element at a drawn index below [len(seq)].  Every
    call site passes a non-empty literal pool. *)
Definition random_choice (seq : list string) (g : Rng) : string * Rng :=
  let '(k, g') := next_draw g in
  (nth (N.to_nat (k mod N.of_nat (length seq))) seq EmptyString, g').

Record datetime := mkDatetime { year : Z; instant : Z }.

Record Clock := mkClock { times : nat -> datetime; reads : nat }.

(** ** The database *)

Inductive BatchStatus :=
  | coop_submitted
  | pending_admin_approval
  | verified
  | processed.

Module User.
Record row := mk {
  id : Z;
  username : string;
  password : string;
  role : string;
  cooperative_name : string;
  industry : string;
  temp_password : option string;
  passphrase : option string;
  pin : option string }.
End User.

Module Batch.
Record row := mk {
  id : Z;
  cooperative_id : Z;
  filename : string;
  record_count : Z;
  total_amount : float;
  submission_timestamp : datetime;
  status : BatchStatus;
  admin_notes : option string;
  cooperative_notes : option string }.

Definition with_status (s : BatchStatus) (b : row) : row :=
  mk (id b) (cooperative_id b) (filename b) (record_count b) (total_amount b)
     (submission_timestamp b) s (admin_notes b) (cooperative_notes b).
End Batch.

Module Payment.
Record row := mk {
  id : Z;
  batch_id : Z;
  farmer_name : Cell;
  bank_name : Cell;
  account_number : Cell;
  amount : Cell;
  status : option string;
  verification_status : option string;
  verification_reason : option string;
  failure_reason : option string }.

Definition with_verification (vs vr : option string) (p : row) : row :=
  mk (id p) (batch_id p) (farmer_name p) (bank_name p) (account_number p)
     (amount p) (status p) vs vr (failure_reason p).

Definition with_settlement (st fr : option string) (p : row) : row :=
  mk (id p) (batch_id p) (farmer_name p) (bank_name p) (account_number p)
     (amount p) st (verification_status p) (verification_reason p) fr.
End Payment.

Module Invoice.
Record row := mk {
  id : Z;
  batch_id : Z;
  cooperative_name : string;
  submission_timestamp : datetime;
  row_count : Z;
  amount_usd : float;
  status : string;
  payment_date : option datetime;
  invoice_reference : string;
  payment_commission_usd : option float;
  payment_commission_reference : option string }.

Definition with_commission (usd : float) (ref : string) (i : row) : row :=
  mk (id i) (batch_id i) (cooperative_name i) (submission_timestamp i)
     (row_count i) (amount_usd i) (status i) (payment_date i)
     (invoice_reference i) (Some usd) (Some ref).
End Invoice.

Module History.
Record row := mk {
  id : Z;
  batch_id : Z;
  cooperative_name : string;
  filename : string;
  record_count : Z;
  total_amount : float;
  processing_timestamp : datetime }.
End History.

Module Log.
Record row := mk {
  id : Z;
  timestamp : datetime;
  user_id : Z;
  cooperative_name : string;
  action : string;
  details : string }.
End Log.

Record Database := mkDB {
  users : list User.row;
  submission_batches : list Batch.row;
  farmer_payments : list Payment.row;
  invoices : list Invoice.row;
  payment_history : list History.row;
  activity_logs : list Log.row }.

(** [INTEGER PRIMARY KEY AUTOINCREMENT]: one more than the largest rowid. *)
Definition next_rowid (ids : list Z) : Z := 1 + fold_right Z.max 0 ids.

(** ** The world and the handler monad *)

(** What a handler can observe and change: the committed database, the shared
    random source and the clock. *)
Record World := mkWorld { db : Database; rng : Rng; clock : Clock }.

Inductive exn :=
  | PreventUpdate
  | TypeError (msg : string)
  | KeyError (msg : string)
  | IndexError (msg : string)
  | IntegrityError (msg : string).

Definition exn_str (e : exn) : string :=
  match e with
  | PreventUpdate => ""
  | TypeError m | KeyError m | IndexError m | IntegrityError m => m
  end.

Inductive result (A : Type) :=
  | Ok (a : A)
  | Raise (e : exn).
Arguments Ok {A} a.
Arguments Raise {A} e.

(** A handler body: it runs in a world and returns a value or raises, and in
    both cases leaves a world behind (a commit survives a later raise). *)
Definition M (A : Type) : Type := World -> result A * World.

#[global] Instance M_ret : MRet M := fun A a w => (Ok a, w).

#[global] Instance M_bind : MBind M := fun A B f m w =>
  match m w with
  | (Ok a, w') => f a w'
  | (Raise e, w') => (Raise e, w')
  end.

Definition raise {A : Type} (e : exn) : M A := fun w => (Raise e, w).

(** [try: body except Exception as e: handler(e)]. *)
Definition try_except {A : Type} (body : M A) (handler : exn -> M A) : M A :=
  fun w =>
    match body w with
    | (Ok a, w') => (Ok a, w')
    | (Raise e, w') => handler e w'
    end.

(** Opening a connection: statements on it start from the committed state. *)
Definition get_db_connection : M Database := fun w => (Ok (db w), w).

(** [conn.commit()]: the connection's pending state becomes the committed one.
    A connection closed without a commit leaves nothing behind. *)
Definition commit (conn : Database) : M unit :=
  fun w => (Ok tt, mkWorld conn (rng w) (clock w)).

Definition datetime_now : M datetime := fun w =>
  let c := clock w in
  (Ok (times c (reads c)), mkWorld (db w) (rng w) (mkClock (times c) (S (reads c)))).

(** Running a piece of code that only draws from the random source. *)
Definition with_random {A : Type} (f : Rng -> A * Rng) : M A := fun w =>
  let '(a, g) := f (rng w) in (Ok a, mkWorld (db w) g (clock w)).

Definition from_option {A : Type} (e : exn) (o : option A) : M A :=
  match o with
  | Some a => mret a
  | None => raise e
  end.

(** A Dash output: either a new value or [dash.no_update]. *)
Inductive Update (A : Type) :=
  | no_update
  | update (a : A).
Arguments no_update {A}.
Arguments update {A} a.

(** The session of the logged-in user, as [authenticate_user] builds it. *)
Module Session.
Record t := mk {
  id : Z;
  username : string;
  role : string;
  cooperative_name : string;
  industry : string }.
End Session.

(** Library code the module calls and this development does not look into. *)
Class PyLib := {
  (** [hashlib.sha256(s.encode()).hexdigest()] *)
  sha256_hexdigest : string -> string;
  (** [df['amount'].sum()], as stored in a REAL column *)
  series_sum : list Cell -> float;
  (** the text SQLite stores when a number is written to a TEXT column *)
  sqlite_text : float -> string;
  (** [f"{x:,.2f}"] *)
  format_money : float -> string }.

(** ** Utility and ledger functions *)

Definition insert_activity_log (conn : Database) (ts : datetime) (user_id : Z)
    (cooperative_name action details : string) : Database :=
  let new_id := next_rowid (map Log.id (activity_logs conn)) in
  mkDB (users conn) (submission_batches conn) (farmer_payments conn)
       (invoices conn) (payment_history conn)
       (activity_logs conn ++
          [Log.mk new_id ts user_id cooperative_name action details]).

Definition log_activity (user_id : Z) (action details : string) : M unit :=
  conn ← get_db_connection;
  let cooperative_name :=
    match find (fun u => User.id u =? user_id) (users conn) with
    | Some u => User.cooperative_name u
    | None => "System"
    end in
  now ← datetime_now;
  commit (insert_activity_log conn now user_id cooperative_name action details).

Definition insert_invoice (conn : Database) (i : Invoice.row) : Database :=
  mkDB (users conn) (submission_batches conn) (farmer_payments conn)
       (invoices conn ++ [i]) (payment_history conn) (activity_logs conn).

(** [SELECT COUNT( * ) FROM invoices WHERE cooperative_name = ?] *)
Definition count_invoices (conn : Database) (cooperative_name : string) : Z :=
  Z.of_nat (length (filter (fun i => Invoice.cooperative_name i = cooperative_name)
                           (invoices conn))).

Definition invoice_reference_of (short : string) (next_id year_now : Z) : string :=
  short +:+ "-" +:+ py_format_04d next_id +:+ "-" +:+ py_str_int year_now.

Definition create_invoice (conn : Database) (batch_id : Z)
    (cooperative_name : string) (row_count : Z) (timestamp : datetime)
    : M ((float * string) * Database) :=
  let amount_usd := PrimFloat.mul (float_of_Z row_count) COST_PER_ROW_USD in
  coop_short_name ← from_option (IndexError "list index out of range")
                                (coop_short cooperative_name);
  let next_id := count_invoices conn cooperative_name + 1 in
  now ← datetime_now;
  let invoice_ref := invoice_reference_of coop_short_name next_id (year now) in
  if existsb (fun i => Invoice.batch_id i =? batch_id) (invoices conn)
  then raise (IntegrityError "UNIQUE constraint failed: invoices.batch_id")
  else
    let row := Invoice.mk (next_rowid (map Invoice.id (invoices conn))) batch_id
                 cooperative_name timestamp row_count amount_usd "unpaid" None
                 invoice_ref None None in
    mret ((amount_usd, invoice_ref), insert_invoice conn row).

Definition update_commission (conn : Database) (batch_id : Z) (usd : float)
    (ref : string) : Database :=
  mkDB (users conn) (submission_batches conn) (farmer_payments conn)
       (map (fun i => if Invoice.batch_id i =? batch_id
                      then Invoice.with_commission usd ref i else i)
            (invoices conn))
       (payment_history conn) (activity_logs conn).

Definition commission_reference_of (short : string) (batch_id : Z) : string :=
  "CP-PAY-" +:+ short +:+ "-" +:+ py_str_int batch_id.

Definition create_payment_commission (conn : Database) (batch_id : Z)
    (cooperative_name : string) (total_amount_tsh : float)
    : M ((float * string) * Database) :=
  let commission_tsh := PrimFloat.mul total_amount_tsh PAYMENT_COMMISSION_RATE in
  let commission_usd :=
    PrimFloat.div commission_tsh (float_of_Z EXCHANGE_RATE_TSH_TO_USD) in
  coop_short_name ← from_option (IndexError "list index out of range")
                                (coop_short cooperative_name);
  let ref_num := commission_reference_of coop_short_name batch_id in
  mret ((commission_usd, ref_num),
        update_commission conn batch_id commission_usd ref_num).

(** ** Credential checks *)

Section Credentials.
Context `{PyLib}.

Definition stored_secret_matches (stored : option string) (attempt : string)
    : bool :=
  match stored with
  | Some stored_hash => String.eqb stored_hash (sha256_hexdigest attempt)
  | None => false
  end.

Definition check_user_passphrase (user_id : Z) (passphrase_attempt : string)
    : M bool :=
  conn ← get_db_connection;
  match find (fun u => User.id u =? user_id) (users conn) with
  | None => mret false
  | Some u => mret (stored_secret_matches (User.passphrase u) passphrase_attempt)
  end.

Definition check_user_pin (user_id : Z) (pin_attempt : string) : M bool :=
  conn ← get_db_connection;
  match find (fun u => User.id u =? user_id) (users conn) with
  | None => mret false
  | Some u => mret (stored_secret_matches (User.pin u) pin_attempt)
  end.
End Credentials.

(** ** The verification simulator (uploader pass) *)

(** A DataFrame: its column labels and its rows, each row a record from
    column label to cell, in index order.  The index is the default one (the
    positions), as for a frame read from a file or built from records, so a
    label names one row. *)
Record DataFrame := mkDF {
  columns : list string;
  records : list (gmap string Cell) }.

Definition required_columns : list string :=
  ["farmer_name"; "bank_name"; "account_number"; "amount"].

Definition uploader_reasons : list string :=
  ["Account Closed"; "Name Mismatch"; "Invalid Bank Code"; "System Check Failed"].

(** [df[col] = value]: the column is added when missing and every row gets
    the value. *)
Definition set_column (col : string) (value : Cell) (df : DataFrame) : DataFrame :=
  mkDF (if bool_decide (col ∈ columns df) then columns df else columns df ++ [col])
       (map (fun r : gmap string Cell => <[col := value]> r) (records df)).

(** The loop [for index in df.index]: one draw per row, a second one for the
    reason of a row that fails; [df.loc[index, col] = value] touches the row
    at that index only. *)
Fixpoint verify_rows (rows : list (gmap string Cell)) (g : Rng)
    : list (gmap string Cell) * Rng :=
  match rows with
  | [] => ([], g)
  | r :: rest =>
      let '(x, g1) := random_random g in
      if PrimFloat.ltb x 0.15%float then
        let '(reason, g2) := random_choice uploader_reasons g1 in
        let r' := <["verification_reason" := CStr reason]>
                    (<["verification_status" := CStr "failed"]> r) in
        let '(rest', g3) := verify_rows rest g2 in
        (r' :: rest', g3)
      else
        let '(rest', g3) := verify_rows rest g1 in
        (r :: rest', g3)
  end.

Definition simulate_bank_verification (df : DataFrame) (g : Rng)
    : option DataFrame * Rng :=
  if negb (forallb (fun c => bool_decide (c ∈ columns df)) required_columns)
  then (None, g)
  else
    let df1 := set_column "verification_status" (CStr "verified") df in
    let df2 := set_column "verification_reason" CNone df1 in
    let '(rows, g') := verify_rows (records df2) g in
    (Some (mkDF (columns df2) rows), g').

(** ** Finalizing a submission *)

(** A cell of [pd.DataFrame(table_data)]: a key missing from a record reads
    as NaN. *)
Definition df_cell (r : gmap string Cell) (col : string) : Cell :=
  default CNone (r !! col).

(** A label is a column of [pd.DataFrame(table_data)] when some record has it. *)
Definition has_column (table_data : list (gmap string Cell)) (col : string) : bool :=
  existsb (fun r : gmap string Cell => bool_decide (is_Some (r !! col))) table_data.

Definition is_null (c : Cell) : bool :=
  match c with CNone => true | _ => false end.

Definition insert_batch (conn : Database) (b : Batch.row) : Database :=
  mkDB (users conn) (submission_batches conn ++ [b]) (farmer_payments conn)
       (invoices conn) (payment_history conn) (activity_logs conn).

Section Submission.
Context `{PyLib}.

(** TEXT affinity of a value written by [to_sql]. *)
Definition text_affinity (c : Cell) : option string :=
  match c with
  | CNone => None
  | CStr s => Some s
  | CNum x => Some (sqlite_text x)
  end.

(** [df_to_db.to_sql('farmer_payments', conn, if_exists='append')]: the rows
    get consecutive rowids; a NULL in a NOT NULL column fails the whole
    insert. *)
Fixpoint to_sql (rows : list (gmap string Cell)) (batch_id next_id : Z)
    : option (list Payment.row) :=
  match rows with
  | [] => Some []
  | r :: rest =>
      let farmer := df_cell r "farmer_name" in
      let bank := df_cell r "bank_name" in
      let account := df_cell r "account_number" in
      let amount := df_cell r "amount" in
      if is_null farmer || is_null bank || is_null account || is_null amount
      then None
      else
        match to_sql rest batch_id (next_id + 1) with
        | None => None
        | Some tail =>
            Some (Payment.mk next_id batch_id farmer bank account amount
                    (Some "pending")
                    (text_affinity (df_cell r "verification_status"))
                    (text_affinity (df_cell r "verification_reason"))
                    None :: tail)
        end
  end.

Definition append_payments (conn : Database) (rows : list Payment.row)
    : Database :=
  mkDB (users conn) (submission_batches conn) (farmer_payments conn ++ rows)
       (invoices conn) (payment_history conn) (activity_logs conn).

Definition submit_outputs : Type :=
  string * bool * string * Update unit * Update datetime.

(** The body of the [try] block of [submit_to_approver]. *)
Definition submit_transaction (table_data : list (gmap string Cell))
    (display_filename : string) (session_data : Session.t)
    (coop_note : option string) : M submit_outputs :=
  conn ← get_db_connection;
  let record_count := Z.of_nat (length table_data) in
  if negb (has_column table_data "amount") then raise (KeyError "amount") else
  let total_amount := series_sum (map (fun r => df_cell r "amount") table_data) in
  submission_timestamp ← datetime_now;
  let batch_id := next_rowid (map Batch.id (submission_batches conn)) in
  let conn := insert_batch conn
                (Batch.mk batch_id (Session.id session_data) display_filename
                   record_count total_amount submission_timestamp
                   coop_submitted None coop_note) in
  if negb (forallb (has_column table_data)
             ["farmer_name"; "bank_name"; "account_number"; "amount";
              "verification_status"; "verification_reason"])
  then raise (KeyError "not in index") else
  rows ← from_option (IntegrityError "NOT NULL constraint failed")
           (to_sql table_data batch_id
              (next_rowid (map Payment.id (farmer_payments conn))));
  let conn := append_payments conn rows in
  '(invoice_usd, invoice_ref, conn) ←
      create_invoice conn batch_id (Session.cooperative_name session_data)
        record_count submission_timestamp;
  commit conn;;
  log_activity (Session.id session_data) "Data Submission (Verified)"
    ("Submitted '" +:+ display_filename +:+ "'. Batch ID: " +:+
     py_str_int batch_id +:+ ". Invoice " +:+ invoice_ref +:+ ": $" +:+
     format_money invoice_usd +:+ ".");;
  let msg := "Successfully submitted " +:+ py_str_int record_count +:+
             " records. Invoice " +:+ invoice_ref +:+ " created for $" +:+
             format_money invoice_usd +:+ ". Awaiting internal approver." in
  done ← datetime_now;
  mret (msg, true, "success", no_update, update done).

Definition submit_to_approver (n_clicks : option Z)
    (table_data : list (gmap string Cell))
    (submission_data_store : gmap string string)
    (session_data : Session.t) (coop_note : option string)
    : M submit_outputs :=
  if negb (truthy_int n_clicks) || bool_decide (table_data = [])
  then mret ("", false, "", no_update, no_update)
  else if negb (String.eqb (Session.role session_data) "coop_uploader")
  then mret ("Access Denied.", true, "danger", no_update, no_update)
  else
    let display_filename :=
      default "uploaded_file" (submission_data_store !! "display_filename") in
    if negb (has_column table_data "verification_status")
    then raise (KeyError "verification_status")
    else if existsb (fun r => cell_eq_str (df_cell r "verification_status") "failed")
                    table_data
    then mret ("Submission Rejected: Please correct all verification failures before submitting.",
               true, "danger", no_update, no_update)
    else
      try_except
        (submit_transaction table_data display_filename session_data coop_note)
        (fun e => mret ("Database error: " +:+ exn_str e, true, "danger",
                        no_update, no_update)).
End Submission.

(** ** The payment authorization modal *)

(** The [style] of a component: [{'display': 'block'}] or [{'display': 'none'}]. *)
Inductive display :=
  | display_block
  | display_none.

(** The content of [payment-authorization-store]. *)
Record PaymentData := mkPaymentData { pd_batch_id : Z; pd_type : string }.

(** The content of [batch-to-process]. *)
Module BatchData.
Record t := mk { id : Z; status : BatchStatus }.
End BatchData.

(** What [callback_context.triggered] names for [trigger_auth_modal]. *)
Inductive auth_trigger :=
  | auth_not_triggered
  | auth_cancel_button
  | auth_payment_button (index : Z).

Record auth_modal_outputs := mkAuthModalOut {
  out_auth_modal_is_open : bool;
  out_payment_authorization_store : option PaymentData;
  out_payment_auth_step_store : string;
  out_passphrase_step_style : display;
  out_pin_step_style : display;
  out_next_button_style : display;
  out_authorize_button_style : display;
  out_passphrase_input_value : string;
  out_pin_input_value : string;
  out_passphrase_alert : option string;
  out_pin_alert : option string }.

Definition trigger_auth_modal (triggered : auth_trigger) : result auth_modal_outputs :=
  match triggered with
  | auth_not_triggered => Raise PreventUpdate
  | auth_cancel_button =>
      Ok (mkAuthModalOut false None "passphrase" display_block display_none
            display_block display_none "" "" None None)
  | auth_payment_button index =>
      let payment_data := mkPaymentData index "batch_payment" in
      Ok (mkAuthModalOut true (Some payment_data) "passphrase" display_block
            display_none display_block display_none "" "" None None)
  end.

Record passphrase_outputs := mkPassphraseOut {
  out_step : string;
  out_step_passphrase_style : display;
  out_step_pin_style : display;
  out_step_next_style : display;
  out_step_authorize_style : display;
  out_step_alert : option string }.

(** [s[:-1]] *)
Definition drop_last (s : string) : string :=
  String.substring 0 (String.length s - 1) s.

(** The dialpad: ['C'] clears, ['<'] deletes, a digit is appended while fewer
    than six characters are held.  [triggered] is the index of the pressed
    button, [None] for an empty [prop_id]. *)
Definition update_pin_from_dialpad (n_clicks : list (option Z))
    (triggered : option string) (current_pin : option string)
    : result (string * string) :=
  if negb (existsb truthy_int n_clicks) then Raise PreventUpdate else
  let current_pin := default "" current_pin in
  match triggered with
  | None => Raise PreventUpdate
  | Some button_value =>
      let new_pin :=
        if String.eqb button_value "C" then ""
        else if String.eqb button_value "<" then drop_last current_pin
        else if (String.length current_pin <? 6)%nat
             then current_pin +:+ button_value
             else current_pin in
      Ok (new_pin, new_pin)
  end.

(** The progress card shown in the payment modal. *)
Record animation := mkAnimation { progress_value : Z; progress_text : string }.

Record pin_outputs := mkPinOut {
  out_pin_auth_modal_is_open : Update bool;
  out_pin_alert_children : Update (option string);
  out_batch_to_process : Update BatchData.t;
  out_payment_modal_is_open : Update bool;
  out_payment_interval_disabled : Update bool;
  out_animation_placeholder : Update animation;
  out_pin_input_store : string;
  out_auth_pin_input : string }.

(** [UPDATE submission_batches SET status = 'pending_admin_approval'
     WHERE id = ? AND status = 'coop_submitted'] *)
Definition authorize_batch (conn : Database) (batch_id : Z) : Database :=
  mkDB (users conn)
       (map (fun b =>
               if (Batch.id b =? batch_id) &&
                  match Batch.status b with coop_submitted => true | _ => false end
               then Batch.with_status pending_admin_approval b else b)
            (submission_batches conn))
       (farmer_payments conn) (invoices conn) (payment_history conn)
       (activity_logs conn).

(** [UPDATE submission_batches SET status = ? WHERE id = ?] *)
Definition set_batch_status (conn : Database) (batch_id : Z) (s : BatchStatus)
    : Database :=
  mkDB (users conn)
       (map (fun b => if Batch.id b =? batch_id then Batch.with_status s b else b)
            (submission_batches conn))
       (farmer_payments conn) (invoices conn) (payment_history conn)
       (activity_logs conn).

Definition find_batch (conn : Database) (batch_id : Z) : option Batch.row :=
  find (fun b => Batch.id b =? batch_id) (submission_batches conn).

Section Authorization.
Context `{PyLib}.

Definition handle_passphrase_step (n_clicks : option Z) (passphrase : string)
    (session_data : Session.t) : M passphrase_outputs :=
  if negb (truthy_int n_clicks) then raise PreventUpdate else
  let user_id := Session.id session_data in
  matched ← check_user_passphrase user_id passphrase;
  if matched : bool
  then mret (mkPassphraseOut "pin" display_none display_block display_none
               display_block None)
  else mret (mkPassphraseOut "passphrase" display_block display_none
               display_block display_none
               (Some "Invalid Passphrase. Please try again.")).

Definition handle_pin_step (n_clicks : option Z) (pin : string)
    (payment_data : option PaymentData) (session_data : Session.t)
    : M pin_outputs :=
  match payment_data with
  | None => raise PreventUpdate
  | Some payment_data =>
      if negb (truthy_int n_clicks) then raise PreventUpdate else
      let user_id := Session.id session_data in
      matched ← check_user_pin user_id pin;
      if matched : bool then
        let batch_id := pd_batch_id payment_data in
        log_activity (Session.id session_data) "Payment Authorized"
          ("Two-step auth passed for Batch ID: " +:+ py_str_int batch_id);;
        conn_check ← get_db_connection;
        let conn_check := authorize_batch conn_check batch_id in
        commit conn_check;;
        batch ← from_option
                  (IndexError "single positional indexer is out-of-bounds")
                  (find_batch conn_check batch_id);
        let batch_status := Batch.status batch in
        let animation_step := mkAnimation 20 (nth 0 PAYMENT_STEPS "") in
        let new_batch_data := BatchData.mk batch_id batch_status in
        mret (mkPinOut (update false) (update None) (update new_batch_data)
                (update true) (update false) (update animation_step) "" "")
      else
        mret (mkPinOut no_update
                (update (Some "Invalid PIN. Please try again."))
                no_update no_update no_update no_update "" "")
  end.
End Authorization.

Record reset_outputs := mkResetOut {
  out_reset_passphrase_step_style : display;
  out_reset_pin_step_style : display;
  out_reset_next_button_style : display;
  out_reset_authorize_button_style : display;
  out_reset_passphrase_input : string;
  out_reset_pin_input : string;
  out_reset_passphrase_alert : option string;
  out_reset_pin_alert : option string;
  out_reset_payment_authorization_store : option PaymentData;
  out_reset_pin_input_store : string }.

Definition reset_auth_modal_on_close (is_open : bool) : result reset_outputs :=
  if is_open then Raise PreventUpdate
  else Ok (mkResetOut display_block display_none display_block display_none
             "" "" None None None "").

(** ** The payment pipeline *)

Definition recheck_reasons : list string :=
  ["Account Closed"; "Name Mismatch"; "Invalid Bank Code"].

Definition settlement_reasons : list string :=
  ["Bank Communication Timeout"; "Daily Limit Reached"; "System Error"].

Definition uncorrected_marker : string := "Pre-verified Failed (Uncorrected)".

(** One parameter tuple of an [executemany]: the two new values and the rowid. *)
Definition row_update : Type := option string * option string * Z.

(** [SELECT id, verification_status, verification_reason FROM farmer_payments
     WHERE batch_id = ?] *)
Definition select_verification (conn : Database) (batch_id : Z)
    : list (Z * option string * option string) :=
  map (fun p => (Payment.id p, Payment.verification_status p,
                 Payment.verification_reason p))
      (filter (fun p => Payment.batch_id p = batch_id) (farmer_payments conn)).

(** The body of the admin recheck loop for one fetched row. *)
Definition recheck_row (row : Z * option string * option string) (g : Rng)
    : row_update * bool * Rng :=
  let '(pid, current_v_status, current_v_reason) := row in
  if py_eq current_v_status "verified" then
    let '(x, g1) := random_random g in
    if PrimFloat.ltb x 0.20%float then
      let '(reason, g2) := random_choice recheck_reasons g1 in
      ((Some "failed", Some reason, pid), true, g2)
    else
      ((Some "verified", None, pid), false, g1)
  else if py_eq current_v_status "failed" then
    let reason_text :=
      if py_truthy current_v_reason then py_str current_v_reason
      else uncorrected_marker in
    ((Some "failed", Some reason_text, pid), true, g)
  else
    ((Some "verified", None, pid), false, g).

(** The admin recheck loop: the updates in fetch order, [total_count],
    [failed_count]. *)
Fixpoint recheck_loop (rows : list (Z * option string * option string)) (g : Rng)
    : (list row_update * Z * Z) * Rng :=
  match rows with
  | [] => (([], 0, 0), g)
  | row :: rest =>
      let '(u, is_failed, g1) := recheck_row row g in
      let '((us, total_count, failed_count), g2) := recheck_loop rest g1 in
      ((u :: us, total_count + 1,
        if is_failed then failed_count + 1 else failed_count), g2)
  end.

Inductive settlement_outcome := settled_paid | settled_failed.

(** The body of the settlement loop for one fetched row. *)
Definition settle_row (row : Z * option string * option string) (g : Rng)
    : row_update * settlement_outcome * Rng :=
  let '(pid, v_status, v_reason) := row in
  if py_eq v_status "failed" then
    ((Some "failed", Some ("Verification Failed: " +:+ py_str v_reason), pid),
     settled_failed, g)
  else
    let '(x, g1) := random_random g in
    if PrimFloat.ltb x 0.95%float then
      ((Some "paid", None, pid), settled_paid, g1)
    else
      let '(reason, g2) := random_choice settlement_reasons g1 in
      ((Some "failed", Some reason, pid), settled_failed, g2).

(** The settlement loop: [payments], [success], [failed]. *)
Fixpoint settle_loop (rows : list (Z * option string * option string)) (g : Rng)
    : (list row_update * Z * Z) * Rng :=
  match rows with
  | [] => (([], 0, 0), g)
  | row :: rest =>
      let '(u, outcome, g1) := settle_row row g in
      let '((us, success, failed), g2) := settle_loop rest g1 in
      ((u :: us,
        match outcome with settled_paid => success + 1 | settled_failed => success end,
        match outcome with settled_paid => failed | settled_failed => failed + 1 end),
       g2)
  end.

Definition with_payments (conn : Database) (rows : list Payment.row) : Database :=
  mkDB (users conn) (submission_batches conn) rows (invoices conn)
       (payment_history conn) (activity_logs conn).

(** [UPDATE farmer_payments SET verification_status = ?, verification_reason = ?
     WHERE id = ?] for one parameter tuple. *)
Definition update_verification (rows : list Payment.row) (u : row_update)
    : list Payment.row :=
  let '(vs, vr, pid) := u in
  map (fun p => if Payment.id p =? pid then Payment.with_verification vs vr p else p)
      rows.

(** [UPDATE farmer_payments SET status = ?, failure_reason = ? WHERE id = ?]
    for one parameter tuple. *)
Definition update_settlement (rows : list Payment.row) (u : row_update)
    : list Payment.row :=
  let '(st, fr, pid) := u in
  map (fun p => if Payment.id p =? pid then Payment.with_settlement st fr p else p)
      rows.

(** [cursor.executemany]: the statement once per tuple, in order. *)
Definition executemany (stmt : list Payment.row -> row_update -> list Payment.row)
    (conn : Database) (params : list row_update) : Database :=
  with_payments conn (fold_left stmt params (farmer_payments conn)).

(** The admin recheck pass over a batch: fetch, loop, write back. *)
Definition admin_recheck_pass (conn : Database) (batch_id : Z) (g : Rng)
    : (Database * Z * Z) * Rng :=
  let '((verification_updates, total_count, failed_count), g') :=
    recheck_loop (select_verification conn batch_id) g in
  ((executemany update_verification conn verification_updates,
    total_count, failed_count), g').

(** The settlement pass over a batch: fetch, loop, write back. *)
Definition settlement_pass (conn : Database) (batch_id : Z) (g : Rng)
    : (Database * Z * Z) * Rng :=
  let '((payments, success, failed), g') :=
    settle_loop (select_verification conn batch_id) g in
  ((executemany update_settlement conn payments, success, failed), g').

(** [SELECT u.cooperative_name, b.filename, b.record_count, b.total_amount
     FROM submission_batches b JOIN users u ON b.cooperative_id = u.id
     WHERE b.id = ?], [fetchone()]. *)
Definition select_batch_info (conn : Database) (batch_id : Z)
    : option (string * string * Z * float) :=
  match find_batch conn batch_id with
  | None => None
  | Some b =>
      match find (fun u => User.id u =? Batch.cooperative_id b) (users conn) with
      | None => None
      | Some u => Some (User.cooperative_name u, Batch.filename b,
                        Batch.record_count b, Batch.total_amount b)
      end
  end.

Definition insert_payment_history (conn : Database) (batch_id : Z)
    (coop_name filename : string) (record_count : Z) (total_amount : float)
    (ts : datetime) : Database :=
  mkDB (users conn) (submission_batches conn) (farmer_payments conn)
       (invoices conn)
       (payment_history conn ++
          [History.mk (next_rowid (map History.id (payment_history conn)))
             batch_id coop_name filename record_count total_amount ts])
       (activity_logs conn).

(** What [callback_context.triggered] names for [handle_payment_processing]. *)
Inductive processing_trigger :=
  | nothing_triggered
  | payment_modal_is_open
  | payment_interval
  | payment_close_button.

(** The instant payment notification handed to [ipn-data-store]. *)
Record ipn := mkIpn {
  ipn_coop : string; ipn_success : Z; ipn_failed : Z; ipn_total : Z }.

Record processing_outputs := mkProcOut {
  out_modal_is_open : Update bool;
  out_interval_disabled : Update bool;
  out_animation : Update animation;
  out_close_disabled : Update bool;
  out_batch_data : Update (option BatchData.t);
  out_ipn : Update ipn }.

Definition is_pending (s : BatchStatus) : bool :=
  match s with pending_admin_approval => true | _ => false end.

(** The first half of the finalize step, taken when the batch data say
    [pending_admin_approval]: the admin recheck pass, the [verified] mark, a
    commit and the log entry. *)
Definition recheck_phase (conn : Database) (batch_id_num : Z)
    (session_data : Session.t) : M unit :=
  '(conn, total_count, failed_count) ←
      with_random (admin_recheck_pass conn batch_id_num);
  let conn := set_batch_status conn batch_id_num verified in
  commit conn;;
  log_activity (Session.id session_data) "Account Verification"
    ("Batch " +:+ py_str_int batch_id_num +:+ " auto-verified. Failures: " +:+
     py_str_int failed_count +:+ "/" +:+ py_str_int total_count +:+ ".").

(** The second half, taken whatever the batch data say: the [processed] mark,
    the settlement pass, the payment history and the commission, one commit,
    then the log entry and the outputs. *)
Definition settle_phase (conn : Database) (batch_id_num : Z)
    (session_data : Session.t) : M processing_outputs :=
  let batch_info := select_batch_info conn batch_id_num in
  let conn := set_batch_status conn batch_id_num processed in
  '(conn, success, failed) ← with_random (settlement_pass conn batch_id_num);
  conn ←
    match batch_info with
    | Some (coop_name, filename, record_count, total_amount) =>
        now ← datetime_now;
        let conn := insert_payment_history conn batch_id_num coop_name filename
                      record_count total_amount now in
        '(_, conn) ← create_payment_commission conn batch_id_num coop_name
                       total_amount;
        mret conn
    | None => mret conn
    end;
  commit conn;;
  match batch_info with
  | None => raise (TypeError "'NoneType' object is not subscriptable")
  | Some (coop_name, filename, record_count, _) =>
      log_activity (Session.id session_data) "Payment Processed"
        ("Processed '" +:+ filename +:+ "' for " +:+ coop_name +:+ ". Success: " +:+
         py_str_int success +:+ ", Failed: " +:+ py_str_int failed +:+ ".");;
      let ipn_data := mkIpn coop_name success failed record_count in
      let result_card := mkAnimation 100 (nth 4 PAYMENT_STEPS "") in
      mret (mkProcOut (update true) (update true) (update result_card)
              (update false) (update None) (update ipn_data))
  end.

(** The finalize step: the [else] branch taken once the four ticks are over.
    One connection serves both halves; after the first half it has nothing
    pending and reads the committed state, log entry included. *)
Definition finalize_batch (batch_id_num : Z) (batch_status : BatchStatus)
    (session_data : Session.t) : M processing_outputs :=
  conn ← get_db_connection;
  (if is_pending batch_status
   then recheck_phase conn batch_id_num session_data
   else mret tt);;
  conn ← get_db_connection;
  settle_phase conn batch_id_num session_data.

Definition no_updates : processing_outputs :=
  mkProcOut no_update no_update no_update no_update no_update no_update.

Definition handle_payment_processing (triggered : processing_trigger)
    (n_intervals : nat) (modal_is_open : bool)
    (batch_data : option BatchData.t) (session_data : Session.t)
    : M processing_outputs :=
  match triggered, batch_data with
  | nothing_triggered, _ => raise PreventUpdate
  | payment_modal_is_open, _ =>
      if modal_is_open
      then mret (mkProcOut no_update (update false) no_update (update true)
                   no_update no_update)
      else mret no_updates
  | payment_interval, Some data =>
      let batch_id_num := BatchData.id data in
      let batch_status := BatchData.status data in
      if (n_intervals <? 4)%nat then
        let step_index := n_intervals in
        let progress := (Z.of_nat step_index + 1) * 20 in
        let animation_step :=
          mkAnimation progress
            (if is_pending batch_status
             then nth step_index VERIFICATION_STEPS ""
             else nth step_index PAYMENT_STEPS "") in
        mret (mkProcOut (update true) (update false) (update animation_step)
                (update true) (update (Some data)) no_update)
      else finalize_batch batch_id_num batch_status session_data
  | payment_interval, None => mret no_updates
  | payment_close_button, _ =>
      mret (mkProcOut (update false) (update true)
              (update (mkAnimation 0 "")) (update true) (update None) no_update)
  end.

(** ** An authorization session, as the browser drives it *)

(** The component properties the authorization callbacks read and write. *)
Record AuthClient := mkAuthClient {
  auth_modal_is_open : bool;
  payment_authorization_store : option PaymentData;
  payment_auth_step_store : string;
  passphrase_step_style : display;
  pin_step_style : display;
  next_button_style : display;
  authorize_button_style : display;
  passphrase_input_value : string;
  pin_input_value : string;
  pin_input_store : string;
  passphrase_alert : option string;
  pin_alert : option string;
  batch_to_process : option BatchData.t }.

(** The layout as [create_payment_auth_modal] and [app.layout] declare it. *)
Definition initial_client : AuthClient :=
  mkAuthClient false None "passphrase" display_block display_none display_block
    display_none "" "" "" None None None.

Definition shown (d : display) : bool :=
  match d with display_block => true | display_none => false end.

(** What the user can do in the browser. *)
Inductive event :=
  | click_payment_button (batch_id : Z)
  | click_cancel
  | dismiss_modal
  | type_passphrase (text : string)
  | click_next
  | press_pad (button : string)
  | click_authorize.

(** A control receives an event only while it is on screen: everything in the
    modal needs the modal open, a button or field needs its own (or its
    step's) style to display it. *)
Definition enabled (ev : event) (c : AuthClient) : bool :=
  match ev with
  | click_payment_button _ => true
  | click_cancel | dismiss_modal => auth_modal_is_open c
  | type_passphrase _ => auth_modal_is_open c && shown (passphrase_step_style c)
  | click_next => auth_modal_is_open c && shown (next_button_style c)
  | press_pad _ => auth_modal_is_open c && shown (pin_step_style c)
  | click_authorize => auth_modal_is_open c && shown (authorize_button_style c)
  end.

(** What an event led to. *)
Inductive outcome :=
  | session_opened (batch_id : Z)
  | session_closed
  | input_changed
  | passphrase_matched
  | passphrase_rejected
  | pin_rejected
  | authorized (batch_id : Z)
  | callback_failed (e : exn).

Definition apply_auth_modal (o : auth_modal_outputs) (c : AuthClient) : AuthClient :=
  mkAuthClient (out_auth_modal_is_open o) (out_payment_authorization_store o)
    (out_payment_auth_step_store o) (out_passphrase_step_style o)
    (out_pin_step_style o) (out_next_button_style o)
    (out_authorize_button_style o) (out_passphrase_input_value o)
    (out_pin_input_value o) (pin_input_store c) (out_passphrase_alert o)
    (out_pin_alert o) (batch_to_process c).

Definition apply_reset (o : reset_outputs) (c : AuthClient) : AuthClient :=
  mkAuthClient (auth_modal_is_open c) (out_reset_payment_authorization_store o)
    (payment_auth_step_store c) (out_reset_passphrase_step_style o)
    (out_reset_pin_step_style o) (out_reset_next_button_style o)
    (out_reset_authorize_button_style o) (out_reset_passphrase_input o)
    (out_reset_pin_input o) (out_reset_pin_input_store o)
    (out_reset_passphrase_alert o) (out_reset_pin_alert o) (batch_to_process c).

(** [payment-auth-modal.is_open] was written: its dependent callback runs. *)
Definition after_is_open_written (c : AuthClient) : AuthClient :=
  match reset_auth_modal_on_close (auth_modal_is_open c) with
  | Ok o => apply_reset o c
  | Raise _ => c
  end.

Definition apply_passphrase (o : passphrase_outputs) (c : AuthClient) : AuthClient :=
  mkAuthClient (auth_modal_is_open c) (payment_authorization_store c)
    (out_step o) (out_step_passphrase_style o) (out_step_pin_style o)
    (out_step_next_style o) (out_step_authorize_style o)
    (passphrase_input_value c) (pin_input_value c) (pin_input_store c)
    (out_step_alert o) (pin_alert c) (batch_to_process c).

Definition from_update {A : Type} (u : Update A) (old : A) : A :=
  match u with update a => a | no_update => old end.

Definition apply_pin (o : pin_outputs) (c : AuthClient) : AuthClient :=
  mkAuthClient (from_update (out_pin_auth_modal_is_open o) (auth_modal_is_open c))
    (payment_authorization_store c) (payment_auth_step_store c)
    (passphrase_step_style c) (pin_step_style c) (next_button_style c)
    (authorize_button_style c) (passphrase_input_value c) (out_auth_pin_input o)
    (out_pin_input_store o) (passphrase_alert c)
    (from_update (out_pin_alert_children o) (pin_alert c))
    (match out_batch_to_process o with
     | update d => Some d
     | no_update => batch_to_process c
     end).

Definition with_is_open (b : bool) (c : AuthClient) : AuthClient :=
  mkAuthClient b (payment_authorization_store c) (payment_auth_step_store c)
    (passphrase_step_style c) (pin_step_style c) (next_button_style c)
    (authorize_button_style c) (passphrase_input_value c) (pin_input_value c)
    (pin_input_store c) (passphrase_alert c) (pin_alert c) (batch_to_process c).

Definition with_passphrase_input (s : string) (c : AuthClient) : AuthClient :=
  mkAuthClient (auth_modal_is_open c) (payment_authorization_store c)
    (payment_auth_step_store c) (passphrase_step_style c) (pin_step_style c)
    (next_button_style c) (authorize_button_style c) s (pin_input_value c)
    (pin_input_store c) (passphrase_alert c) (pin_alert c) (batch_to_process c).

Definition with_pin (store value : string) (c : AuthClient) : AuthClient :=
  mkAuthClient (auth_modal_is_open c) (payment_authorization_store c)
    (payment_auth_step_store c) (passphrase_step_style c) (pin_step_style c)
    (next_button_style c) (authorize_button_style c) (passphrase_input_value c)
    value store (passphrase_alert c) (pin_alert c) (batch_to_process c).

Section Sessions.
Context `{PyLib}.
Variable session_data : Session.t.

(** One event of the browser: the callback it fires, the outputs written
    back, and the callback that depends on them.  [None] when the control
    is not on screen. *)
Definition auth_step (ev : event) (st : AuthClient * World)
    : option (outcome * (AuthClient * World)) :=
  let '(c, w) := st in
  if negb (enabled ev c) then None else
  match ev with
  | click_payment_button b =>
      match trigger_auth_modal (auth_payment_button b) with
      | Ok o => Some (session_opened b,
                      (after_is_open_written (apply_auth_modal o c), w))
      | Raise e => Some (callback_failed e, (c, w))
      end
  | click_cancel =>
      match trigger_auth_modal auth_cancel_button with
      | Ok o => Some (session_closed,
                      (after_is_open_written (apply_auth_modal o c), w))
      | Raise e => Some (callback_failed e, (c, w))
      end
  | dismiss_modal =>
      Some (session_closed, (after_is_open_written (with_is_open false c), w))
  | type_passphrase text =>
      Some (input_changed, (with_passphrase_input text c, w))
  | click_next =>
      match handle_passphrase_step (Some 1) (passphrase_input_value c)
              session_data w with
      | (Ok o, w') =>
          Some (if String.eqb (out_step o) "pin"
                then passphrase_matched else passphrase_rejected,
                (apply_passphrase o c, w'))
      | (Raise e, w') => Some (callback_failed e, (c, w'))
      end
  | press_pad button =>
      match update_pin_from_dialpad [Some 1] (Some button)
              (Some (pin_input_store c)) with
      | Ok (store, value) => Some (input_changed, (with_pin store value c, w))
      | Raise e => Some (callback_failed e, (c, w))
      end
  | click_authorize =>
      match handle_pin_step (Some 1) (pin_input_store c)
              (payment_authorization_store c) session_data w with
      | (Ok o, w') =>
          Some (match out_batch_to_process o with
                | update d => authorized (BatchData.id d)
                | no_update => pin_rejected
                end,
                (match out_pin_auth_modal_is_open o with
                 | update _ => after_is_open_written (apply_pin o c)
                 | no_update => apply_pin o c
                 end, w'))
      | (Raise e, w') => Some (callback_failed e, (c, w'))
      end
  end.

(** One entry of a session log: the state an event met and what it led to. *)
Record entry := mkEntry {
  before : AuthClient * World;
  what : event;
  led_to : outcome }.

(** Runs of the browser against the server, oldest event first. *)
Inductive auth_run : AuthClient * World -> list entry -> AuthClient * World -> Prop :=
  | auth_run_nil st : auth_run st [] st
  | auth_run_snoc st log st1 ev o st2 :
      auth_run st log st1 ->
      auth_step ev st1 = Some (o, st2) ->
      auth_run st (log ++ [mkEntry st1 ev o]) st2.



End Sessions.

(** ** Runs of the server-side operations *)


Section Operations.
Context `{PyLib}.



End Operations.

(** Every account's cooperative name has a token to abbreviate. *)
Definition users_named (conn : Database) : Prop :=
  Forall (fun u => coop_short (User.cooperative_name u) <> None) (users conn).


(** ** Vocabulary of the statements *)

(** What the loop can do to a row: nothing, or mark it failed with a reason
    of the pool. *)
Definition row_verdict (r r' : gmap string Cell) : Prop :=
  r' = r \/
  exists reason, reason ∈ uploader_reasons /\
    r' = <["verification_reason" := CStr reason]>
           (<["verification_status" := CStr "failed"]> r).

(** One [UPDATE farmer_payments SET ... WHERE id = ?] with a parameter tuple,
    [set] writing the two columns of the statement. *)
Definition statement (set : option string -> option string -> Payment.row -> Payment.row)
    (rows : list Payment.row) (u : row_update) : list Payment.row :=
  let '(a, b, pid) := u in
  map (fun p => if Payment.id p =? pid then set a b p else p) rows.

(** What a sequence of parameter tuples does to one row. *)
Fixpoint written (set : option string -> option string -> Payment.row -> Payment.row)
    (us : list row_update) (p : Payment.row) : Payment.row :=
  match us with
  | [] => p
  | (a, b, pid) :: rest =>
      written set rest (if Payment.id p =? pid then set a b p else p)
  end.

(** The updates of a loop, one per fetched row and each the loop body's answer
    for its row at some state of the random source. *)
Definition answers (body : Z * option string * option string -> Rng -> row_update)
    (rows : list (Z * option string * option string)) (us : list row_update) : Prop :=
  Forall2 (fun r u => exists g0, u = body r g0) rows us.


Section SessionVocabulary.
Context `{PyLib}.
Variable session_data : Session.t.

End SessionVocabulary.

(** * The rest of the stateful handlers *)

(** ** Session obfuscation *)

(** [chr(ord(c) ^ key)] on a character below 256. *)
Definition xor_char (key : N) (c : ascii) : ascii :=
  ascii_of_N (N.lxor (N_of_ascii c) key).

(** The characters [chr(ord(c) ^ key)] of [s] joined, with [key = 42]. *)
Fixpoint obfuscate (s : string) : string :=
  match s with
  | EmptyString => EmptyString
  | String c rest => String (xor_char 42 c) (obfuscate rest)
  end.

Section SessionCodec.
(** [json.dumps] and [json.loads] on a session; [None] stands for the
    exception [json.loads] raises on text that is no JSON (and for [null]). *)
Variable json_dumps : Session.t -> string.
Variable json_loads : string -> option Session.t.

Definition serialize_session (session_data : option Session.t) : option string :=
  match session_data with
  | None => None
  | Some d => Some (obfuscate (json_dumps d))
  end.

Definition deserialize_session (obfuscated_data : option string)
    : option Session.t :=
  match obfuscated_data with
  | None => None
  | Some o => json_loads (obfuscate o)
  end.
End SessionCodec.

(** ** More Python helpers *)

(** [random.randint(a, b)]: a drawn integer between [a] and [b], both included. *)
Definition random_randint (a b : Z) (g : Rng) : Z * Rng :=
  let '(k, g') := next_draw g in
  (a + Z.of_N k mod (b - a + 1), g').




Definition lower_ascii (c : ascii) : ascii :=
  let n := nat_of_ascii c in
  if ((65 <=? n)%nat && (n <=? 90)%nat) then ascii_of_nat (n + 32) else c.

(** [str.lower()] on the ASCII range. *)
Fixpoint py_lower (s : string) : string :=
  match s with
  | EmptyString => EmptyString
  | String c rest => String (lower_ascii c) (py_lower rest)
  end.

(** Truthiness of an input value: [None] and [''] are falsy. *)
Definition truthy_text (v : option string) : bool := py_truthy v.

(** ** Accounts *)

Definition COOPERATIVE_UNIONS : list string :=
  ["CORECU Ltd"; "LMCU Ltd"; "TAMCU Ltd"; "RUNALI Ltd"; "MAMCU Ltd"; "TANECU Ltd"].

Definition with_users (conn : Database) (us : list User.row) : Database :=
  mkDB us (submission_batches conn) (farmer_payments conn) (invoices conn)
       (payment_history conn) (activity_logs conn).

(** [INSERT INTO users (username, password, role, cooperative_name, industry,
     temp_password, passphrase, pin) VALUES (...)] *)
Definition insert_user (conn : Database) (username password role
    cooperative_name industry : string) (temp_password passphrase pin : option string)
    : Database :=
  with_users conn
    (users conn ++
       [User.mk (next_rowid (map User.id (users conn))) username password role
          cooperative_name industry temp_password passphrase pin]).

(** [UPDATE users SET password = ?, passphrase = ?, pin = ?,
     temp_password = NULL WHERE id = ?] *)
Definition set_credentials (conn : Database) (user_id : Z)
    (password passphrase pin : string) : Database :=
  with_users conn
    (map (fun u => if User.id u =? user_id
                   then User.mk (User.id u) (User.username u) password
                          (User.role u) (User.cooperative_name u)
                          (User.industry u) None (Some passphrase) (Some pin)
                   else u)
         (users conn)).

(** [UPDATE submission_batches SET admin_notes = ? WHERE id = ?] *)
Definition set_admin_note (conn : Database) (batch_id : Z) (note : string)
    : Database :=
  mkDB (users conn)
       (map (fun b => if Batch.id b =? batch_id
                      then Batch.mk (Batch.id b) (Batch.cooperative_id b)
                             (Batch.filename b) (Batch.record_count b)
                             (Batch.total_amount b) (Batch.submission_timestamp b)
                             (Batch.status b) (Some note) (Batch.cooperative_notes b)
                      else b)
            (submission_batches conn))
       (farmer_payments conn) (invoices conn) (payment_history conn)
       (activity_logs conn).


Record create_user_outputs := mkCreateUserOut {
  out_create_alert : Update string;
  out_create_alert_is_open : bool;
  out_create_alert_color : string;
  out_new_username : Update string;
  out_new_password : Update string;
  out_new_coop_name : Update (option string);
  out_new_role : Update (option string);
  out_new_product : Update (option string);
  out_user_management_trigger : Update datetime }.

Section Accounts.
Context `{PyLib}.
Variable json_dumps : Session.t -> string.
Variable json_loads : string -> option Session.t.

Definition update_approver_credentials (user_id : Z)
    (new_password new_passphrase new_pin : string) : M unit :=
  conn ← get_db_connection;
  let hashed_password := sha256_hexdigest new_password in
  let hashed_passphrase := sha256_hexdigest new_passphrase in
  let hashed_pin := sha256_hexdigest new_pin in
  commit (set_credentials conn user_id hashed_password hashed_passphrase hashed_pin).

Definition authenticate_user (username password : string)
    : M (option Session.t) :=
  conn ← get_db_connection;
  match find (fun u => String.eqb (User.username u) username) (users conn) with
  | Some user =>
      if String.eqb (User.password user) (sha256_hexdigest password)
      then mret (Some (Session.mk (User.id user) username (User.role user)
                         (User.cooperative_name user) (User.industry user)))
      else mret None
  | None => mret None
  end.

Definition handle_login (n_clicks : option Z) (username password : option string)
    : M (Update (option string) * option string) :=
  if negb (truthy_text username) || negb (truthy_text password)
  then mret (no_update, Some "Fields cannot be empty.")
  else
    user ← authenticate_user (py_str username) (py_str password);
    match user with
    | Some user =>
        log_activity (Session.id user) "Login"
          ("User '" +:+ Session.username user +:+ "' logged in.");;
        mret (update (serialize_session json_dumps (Some user)), None)
    | None => mret (update None, Some "Invalid credentials.")
    end.



Definition create_user_alert (msg color : string) : create_user_outputs :=
  mkCreateUserOut (update msg) true color no_update no_update no_update
    no_update no_update no_update.

Definition create_coop_user (n_clicks : option Z)
    (username coop_name role product : option string)
    (session_data_obfuscated : option string) : M create_user_outputs :=
  if negb (truthy_int n_clicks)
  then mret (mkCreateUserOut no_update false "" no_update no_update no_update
               no_update no_update no_update)
  else
    match deserialize_session json_loads session_data_obfuscated with
    | None => mret (create_user_alert "Access Denied." "danger")
    | Some session_data =>
        if negb (String.eqb (Session.role session_data) "admin" ||
                 String.eqb (Session.role session_data) "coop_approver")
        then mret (create_user_alert "Access Denied." "danger")
        else if negb (truthy_text username && truthy_text coop_name &&
                      truthy_text role)
        then mret (create_user_alert
                     "Username, Cooperative, and Role are required." "warning")
        else
          let username := py_str username in
          let coop_name := py_str coop_name in
          let role := py_str role in
          conn ← get_db_connection;
          if existsb (fun u => String.eqb (User.username u) username) (users conn)
          then mret (create_user_alert
                       ("Username '" +:+ username +:+ "' is already taken.")
                       "danger")
          else
            try_except
              (coop_short_name ← from_option (IndexError "list index out of range")
                                             (coop_short coop_name);
               random_seed ← with_random (random_randint 10000 20000);
               let temp_password := coop_short_name +:+ py_str_int random_seed in
               let hashed_password := sha256_hexdigest temp_password in
               let user_product :=
                 if truthy_text product then py_str product else "Not Specified" in
               let is_approver := String.eqb role "coop_approver" in
               let new_passphrase_hash :=
                 if is_approver then Some (sha256_hexdigest "cooppass") else None in
               let new_pin_hash :=
                 if is_approver then Some (sha256_hexdigest "123456") else None in
               commit (insert_user conn username hashed_password role coop_name
                         user_product (Some temp_password) new_passphrase_hash
                         new_pin_hash);;
               log_activity (Session.id session_data) "User Created"
                 ("Created new '" +:+ role +:+ "' user: " +:+ username +:+
                  " for " +:+ coop_name +:+ ". Initial Password: " +:+
                  temp_password);;
               now ← datetime_now;
               mret (mkCreateUserOut
                       (update ("Successfully created user **" +:+ username +:+
                                "** (" +:+ role +:+ ") for " +:+ coop_name +:+ "."))
                       true "success" (update "") (update "") (update None)
                       (update None) (update None) (update now)))
              (fun e => mret (create_user_alert
                                ("Database error during user creation: " +:+
                                 exn_str e) "danger"))
    end.

(** The accounts [init_db] seeds, in insertion order: the administrator, the
    CORECU uploader, and one finance approver per cooperative union. *)
Definition users_to_add
    : list (string * string * string * string * string * option string *
            option string * option string) :=
  let admin_password := sha256_hexdigest "admin123" in
  let coop_password := sha256_hexdigest "coop123" in
  let admin_passphrase := sha256_hexdigest "adminpass" in
  let admin_pin := sha256_hexdigest "987654" in
  let coop_passphrase := sha256_hexdigest "cooppass" in
  let coop_pin := sha256_hexdigest "123456" in
  [ ("admin", admin_password, "admin", "Farmers Payment Module Admin",
     "Administration", Some "admin123", Some admin_passphrase, Some admin_pin);
    ("corecu_data", coop_password, "coop_uploader", "CORECU Ltd", "Peas",
     Some "coop123", None, None) ]
  ++ map (fun union_name =>
            (py_lower (default "" (head (py_split union_name))) +:+ "_finance",
             coop_password, "coop_approver", union_name,
             if String.eqb union_name "CORECU Ltd" then "Peas" else "Administration",
             Some "coop123", Some coop_passphrase, Some coop_pin))
         COOPERATIVE_UNIONS.

(** [init_db]: every table dropped and created anew, then the accounts
    inserted one by one. *)
Definition init_db : M unit :=
  let empty := mkDB [] [] [] [] [] [] in
  commit (fold_left
            (fun conn user =>
               let '(username, password, role, cooperative_name, industry,
                     temp_password, passphrase, pin) := user in
               insert_user conn username password role cooperative_name industry
                 temp_password passphrase pin)
            users_to_add empty).
End Accounts.

(** [save_admin_note]: [triggered] is the batch id in the id of the pressed
    button, [notes] the values of the note fields on the page. *)
Definition save_admin_note (n_clicks : list (option Z)) (triggered : Z)
    (notes : list (option string)) : M (bool * string * string) :=
  if negb (existsb truthy_int n_clicks) then mret (false, "", "") else
  let batch_id := triggered in
  let note_value :=
    match notes with
    | Some note :: _ => note
    | _ => ""
    end in
  conn ← get_db_connection;
  commit (set_admin_note conn batch_id note_value);;
  mret (true, "Response saved successfully!", "success").

(** ** Vocabulary of the further statements *)



(** The rowids of the six tables, table by table and in row order. *)
Definition table_ids (conn : Database) : list (list Z) :=
  [ map User.id (users conn); map Batch.id (submission_batches conn);
    map Payment.id (farmer_payments conn); map Invoice.id (invoices conn);
    map History.id (payment_history conn); map Log.id (activity_logs conn) ].



Definition rowids_unique (conn : Database) : Prop :=
  Forall (fun ids : list Z => NoDup ids) (table_ids conn).

Definition usernames_unique (conn : Database) : Prop :=
  NoDup (map User.username (users conn)).


(** ** The callbacks that write *)


Section Server.
Context `{PyLib}.
Variable json_dumps : Session.t -> string.
Variable json_loads : string -> option Session.t.


End Server.

(** ** Replaying a list of browser events *)

Section Replay.
Context `{PyLib}.
Variable session_data : Session.t.

(** Plays the events in order and keeps the session log; [None] as soon as an
    event meets a control that is not on screen. *)
Fixpoint play (evs : list event) (st : AuthClient * World) (log : list entry)
    : option (list entry * (AuthClient * World)) :=
  match evs with
  | [] => Some (log, st)
  | ev :: rest =>
      match auth_step session_data ev st with
      | Some (o, st') => play rest st' (log ++ [mkEntry st ev o])
      | None => None
      end
  end.
End Replay.

(** ** A reference scenario: one cooperative, one batch of two rows *)

(** Stand-ins for the library functions, good enough to run the handlers. *)
Definition reference_lib : PyLib := {|
  sha256_hexdigest := fun s => "sha256:" +:+ s;
  series_sum := fun cells =>
    fold_left (fun acc c => match c with CNum x => PrimFloat.add acc x | _ => acc end)
              cells 0%float;
  sqlite_text := fun _ => "0.0";
  format_money := fun _ => "0.00" |}.

Definition corecu_uploader : User.row :=
  User.mk 1 "corecu_data" "sha256:coop123" "coop_uploader" "CORECU Ltd" "Peas"
    (Some "coop123") None None.

Definition corecu_approver : User.row :=
  User.mk 2 "corecu_finance" "sha256:coop123" "coop_approver" "CORECU Ltd" "Peas"
    (Some "coop123") (Some "sha256:cooppass") (Some "sha256:123456").

Definition uploader_session : Session.t :=
  Session.mk 1 "corecu_data" "coop_uploader" "CORECU Ltd" "Peas".

Definition approver_session : Session.t :=
  Session.mk 2 "corecu_finance" "coop_approver" "CORECU Ltd" "Peas".

(** The first four draws are 0.5, every later one is just below 1. *)
Definition reference_tape (n : nat) : N :=
  if (n <? 4)%nat then 4503599627370496%N else 9007199254740991%N.

Definition world_start : World :=
  mkWorld (mkDB [corecu_uploader; corecu_approver] [] [] [] [] [])
          (mkRng reference_tape 0)
          (mkClock (fun n => mkDatetime 2025 (Z.of_nat n)) 0).

Definition table_row (farmer account : string) (amount : float) (status : string)
    (reason : Cell) : gmap string Cell :=
  <["farmer_name" := CStr farmer]>
    (<["bank_name" := CStr "NBC"]>
       (<["account_number" := CStr account]>
          (<["amount" := CNum amount]>
             (<["verification_status" := CStr status]>
                (<["verification_reason" := reason]> ∅))))).

Definition verified_table : list (gmap string Cell) :=
  [ table_row "Asha Juma" "0110001" 600000%float "verified" CNone;
    table_row "Baraka Said" "0110002" 400000%float "verified" CNone ].

Definition rejected_table : list (gmap string Cell) :=
  [ table_row "Asha Juma" "0110001" 600000%float "verified" CNone;
    table_row "Baraka Said" "0110002" 400000%float "failed" (CStr "Account Closed") ].

Definition upload_store : gmap string string :=
  <["display_filename" := "March - farmers.csv"]> ∅.

(** The uploader finalizes the two verified rows: batch 1, invoice
    CORECU-0001-2025. *)
Definition world_submitted : World :=
  snd (submit_to_approver (H := reference_lib) (Some 1) verified_table upload_store uploader_session
         (Some "first batch") world_start).

(** The approver opens the modal for batch 1, types the passphrase, then the
    six digits, and authorizes. *)
Definition approval_events : list event :=
  [ click_payment_button 1; type_passphrase "cooppass"; click_next;
    press_pad "1"; press_pad "2"; press_pad "3"; press_pad "4"; press_pad "5";
    press_pad "6"; click_authorize ].

Definition approval : option (list entry * (AuthClient * World)) :=
  play (H := reference_lib) approver_session approval_events (initial_client, world_submitted) [].

Definition approval_log : list entry :=
  match approval with Some (log, _) => log | None => [] end.

Definition approval_end : AuthClient * World :=
  match approval with
  | Some (_, st) => st
  | None => (initial_client, world_submitted)
  end.

Definition world_authorized : World := snd approval_end.



(** The pipeline reaches its finalize step with the batch data the PIN step
    handed over. *)
Definition world_settled : World :=
  snd (handle_payment_processing payment_interval 4 true
         (Some (BatchData.mk 1 pending_admin_approval)) approver_session
         world_authorized).


(** A table of rows of batch 7 in the three verification states, and a row of
    another batch. *)
Definition mixed_rows : Database :=
  mkDB [corecu_uploader; corecu_approver] [] 
    [ Payment.mk 1 7 (CStr "Asha Juma") (CStr "NBC") (CStr "0110001")
        (CNum 600000%float) (Some "pending") (Some "failed")
        (Some "Account Closed") None;
      Payment.mk 2 7 (CStr "Baraka Said") (CStr "NBC") (CStr "0110002")
        (CNum 400000%float) (Some "pending") (Some "unverified") None None;
      Payment.mk 3 7 (CStr "Chausiku Ali") (CStr "NBC") (CStr "0110003")
        (CNum 250000%float) (Some "pending") (Some "verified") None None;
      Payment.mk 4 8 (CStr "Daudi Omari") (CStr "NBC") (CStr "0110004")
        (CNum 100000%float) (Some "pending") (Some "failed") None None ]
    [] [] [].

Definition upload_frame : DataFrame :=
  mkDF ["farmer_name"; "bank_name"; "account_number"; "amount"; "village"]
       [ <["village" := CStr "Mtwara"]>
           (<["farmer_name" := CStr "Asha Juma"]>
              (<["bank_name" := CStr "NBC"]>
                 (<["account_number" := CStr "0110001"]>
                    (<["amount" := CNum 600000%float]> ∅)))) ].

(** ** More of the reference scenario *)

(** Stand-ins for the JSON codec, good enough to carry the two sessions of
    the scenario. *)
Definition reference_dumps (s : Session.t) : string :=
  py_str_int (Session.id s) +:+ "|" +:+ Session.username s +:+ "|" +:+
  Session.role s +:+ "|" +:+ Session.cooperative_name s +:+ "|" +:+
  Session.industry s.

Definition reference_loads (text : string) : option Session.t :=
  if String.eqb text (reference_dumps approver_session) then Some approver_session
  else if String.eqb text (reference_dumps uploader_session)
       then Some uploader_session
       else None.

(** The approver opens the modal for batch 1, types a passphrase and
    cancels. *)
Definition cancelled_events : list event :=
  [ click_payment_button 1; type_passphrase "cooppass"; click_cancel ].

Definition cancelled : option (list entry * (AuthClient * World)) :=
  play (H := reference_lib) approver_session cancelled_events
    (initial_client, world_start) [].

Definition cancelled_log : list entry :=
  match cancelled with Some (log, _) => log | None => [] end.

Definition cancelled_end : AuthClient * World :=
  match cancelled with
  | Some (_, st) => st
  | None => (initial_client, world_start)
  end.
(** * Properties *)

Ltac run_M := unfold log_activity, mbind, M_bind, mret, M_ret, raise,
  from_option, get_db_connection, commit, datetime_now, with_random in *;
  cbn in *.

(** ** Submission *)

Lemma has_column_of_cell (table_data : list (gmap string Cell)) r col c :
  r ∈ table_data -> r !! col = Some c -> has_column table_data col = true.
Proof.
  intros Hin Hr. unfold has_column. apply existsb_exists.
  exists r. split; [by apply list_elem_of_In|].
  apply bool_decide_eq_true. by rewrite Hr.
Qed.

(** C5. A row set with at least one row whose verification status is
    [failed] cannot be finalized: whatever the other inputs, the handler
    returns without the success signal and leaves the world as it found it, so
    no batch is created, no row is persisted and no invoice is opened; for an
    uploader who clicked, the answer is the rejection message. *)
Theorem submit_rejected_while_failed `{PyLib} (n_clicks : option Z)
    (table_data : list (gmap string Cell)) (store : gmap string string)
    (session_data : Session.t) (coop_note : option string) (w : World)
    (r : gmap string Cell) :
  r ∈ table_data ->
  r !! "verification_status" = Some (CStr "failed") ->
  exists msg is_open color,
    submit_to_approver n_clicks table_data store session_data coop_note w
      = (Ok (msg, is_open, color, no_update, no_update), w)
    /\ (truthy_int n_clicks = true ->
        Session.role session_data = "coop_uploader" ->
        msg = "Submission Rejected: Please correct all verification failures before submitting.").
Proof.
  intros Hin Hfailed. unfold submit_to_approver.
  destruct (truthy_int n_clicks) eqn:Hclicks; cbn.
  - destruct (bool_decide (table_data = [])) eqn:Hempty.
    { apply bool_decide_eq_true in Hempty. subst. by apply elem_of_nil in Hin. }
    destruct (String.eqb (Session.role session_data) "coop_uploader") eqn:Hrole; cbn.
    + rewrite (has_column_of_cell _ _ _ _ Hin Hfailed). cbn.
      assert (existsb (fun r0 => cell_eq_str (df_cell r0 "verification_status") "failed")
                table_data = true) as ->.
      { apply existsb_exists. exists r. split; [by apply list_elem_of_In|].
        unfold df_cell. by rewrite Hfailed. }
      eexists _, _, _. split; [reflexivity|]. done.
    + eexists _, _, _. split; [reflexivity|].
      intros _ Hr. rewrite Hr in Hrole. discriminate.
  - eexists _, _, _. split; [reflexivity|]. discriminate.
Qed.

(** ** Ledger *)


Lemma count_invoices_names conn conn' name :
  map Invoice.cooperative_name (invoices conn) =
  map Invoice.cooperative_name (invoices conn') ->
  count_invoices conn name = count_invoices conn' name.
Proof.
  unfold count_invoices. generalize (invoices conn) (invoices conn').
  induction l as [|i l IH]; intros [|i' l'] Heq; try discriminate; [done|].
  injection Heq as Hi Hl. rewrite !filter_cons, Hi.
  specialize (IH _ Hl). destruct (decide (Invoice.cooperative_name i' = name)); cbn; lia.
Qed.




(** ** The uploader verification pass *)

Lemma random_choice_in (seq : list string) (g : Rng) :
  seq <> [] -> fst (random_choice seq g) ∈ seq.
Proof.
  intros Hne. unfold random_choice, next_draw; cbn.
  apply list_elem_of_In, nth_In.
  assert (N.of_nat (length seq) <> 0%N) as Hlen by (destruct seq; [done|cbn; lia]).
  pose proof (N.mod_upper_bound (entropy g (drawn g)) _ Hlen). lia.
Qed.

Lemma verify_rows_verdicts (rows : list (gmap string Cell)) (g : Rng) :
  Forall2 row_verdict rows (fst (verify_rows rows g)).
Proof.
  revert g. induction rows as [|r rows IH]; intros g; cbn [verify_rows].
  { constructor. }
  destruct (random_random g) as [x g1].
  destruct (PrimFloat.ltb x 0.15) eqn:Hroll.
  - pose proof (random_choice_in uploader_reasons g1) as Hin.
    destruct (random_choice uploader_reasons g1) as [reason g2].
    specialize (IH g2). destruct (verify_rows rows g2) as [rest g3].
    cbn [fst] in *.
    constructor; [|exact IH]. right. exists reason. split; [|done].
    apply Hin. discriminate.
  - specialize (IH g1). destruct (verify_rows rows g1) as [rest g3].
    cbn [fst] in *.
    constructor; [by left|exact IH].
Qed.

(** C9. On a row set that has the required columns the uploader pass returns
    a row set of the same length in which every row keeps each field other
    than the two verification fields (farmer name, bank, account number,
    amount and any further column), and is either verified with no reason or
    failed with a reason of the fixed pool. *)
Theorem simulate_bank_verification_frame (df : DataFrame) (g : Rng) :
  (forall col, col ∈ required_columns -> col ∈ columns df) ->
  exists df' g',
    simulate_bank_verification df g = (Some df', g')
    /\ length (records df') = length (records df)
    /\ forall i r, records df !! i = Some r ->
       exists r', records df' !! i = Some r'
         /\ (forall col, col <> "verification_status" ->
               col <> "verification_reason" -> r' !! col = r !! col)
         /\ ((r' !! "verification_status" = Some (CStr "verified")
              /\ r' !! "verification_reason" = Some CNone)
             \/ (r' !! "verification_status" = Some (CStr "failed")
                 /\ exists reason, reason ∈ uploader_reasons
                      /\ r' !! "verification_reason" = Some (CStr reason))).
Proof.
  intros Hcols. unfold simulate_bank_verification.
  assert (forallb (fun c => bool_decide (c ∈ columns df)) required_columns = true) as ->.
  { apply forallb_forall. intros c Hc. apply bool_decide_eq_true, Hcols.
    by apply list_elem_of_In. }
  cbn [negb].
  set (df2 := set_column "verification_reason" CNone
                (set_column "verification_status" (CStr "verified") df)).
  pose proof (verify_rows_verdicts (records df2) g) as Hall.
  destruct (verify_rows (records df2) g) as [rows g'] eqn:Hrun. cbn in Hall.
  exists (mkDF (columns df2) rows), g'. split; [reflexivity|]. cbn.
  assert (length (records df2) = length (records df)) as Hlen.
  { subst df2. cbn. by rewrite !length_map. }
  split; [by rewrite <- (Forall2_length _ _ _ Hall)|].
  intros i r Hr.
  assert (records df2 !! i =
          Some (<["verification_reason" := CNone]>
                  (<["verification_status" := CStr "verified"]> r))) as Hr2.
  { subst df2. cbn. by rewrite !list_lookup_fmap, Hr. }
  destruct (Forall2_lookup_l _ _ _ _ _ Hall Hr2) as (r' & Hr' & Hverdict).
  exists r'. split; [exact Hr'|].
  destruct Hverdict as [-> | (reason & Hreason & ->)].
  - split.
    + intros col H1 H2. by rewrite !lookup_insert_ne.
    + left. split.
      * rewrite lookup_insert_ne by done. by rewrite lookup_insert_eq.
      * by rewrite lookup_insert_eq.
  - split.
    + intros col H1 H2. by rewrite !lookup_insert_ne.
    + right. split.
      * rewrite lookup_insert_ne by done. by rewrite lookup_insert_eq.
      * exists reason. split; [done|]. by rewrite lookup_insert_eq.
Qed.

(** ** Writing a pass back with [executemany] *)

Section Executemany.
Variable set : option string -> option string -> Payment.row -> Payment.row.
Hypothesis set_id : forall a b p, Payment.id (set a b p) = Payment.id p.

Lemma fold_left_statement us rows :
  fold_left (statement set) us rows = map (written set us) rows.
Proof.
  revert rows. induction us as [|[[a b] pid] us IH]; intros rows; cbn.
  - by rewrite map_id.
  - rewrite IH, map_map. reflexivity.
Qed.

Lemma written_skip us p :
  (forall u, u ∈ us -> snd u <> Payment.id p) -> written set us p = p.
Proof.
  revert p. induction us as [|[[a b] pid] us IH]; intros p Hno; cbn; [done|].
  assert ((Payment.id p =? pid) = false) as ->.
  { apply Z.eqb_neq. intros Heq. apply (Hno (a, b, pid)); [left|done]. }
  apply IH. intros u Hu. apply Hno. by right.
Qed.

Lemma written_own us a b p :
  NoDup (map snd us) -> (a, b, Payment.id p) ∈ us -> written set us p = set a b p.
Proof.
  revert p. induction us as [|[[a' b'] pid] us IH]; intros p Hnodup Hin.
  { by apply elem_of_nil in Hin. }
  cbn in Hnodup. apply NoDup_cons in Hnodup as [Hfresh Hnodup]. cbn.
  apply elem_of_cons in Hin as [Heq | Hin].
  - injection Heq as <- <- <-. rewrite Z.eqb_refl.
    apply written_skip. intros u Hu. rewrite set_id. intros Hsame.
    apply Hfresh. rewrite <- Hsame. by apply list_elem_of_fmap_2.
  - assert ((Payment.id p =? pid) = false) as ->.
    { apply Z.eqb_neq. intros <-. apply Hfresh.
      by apply (list_elem_of_fmap_2 snd) in Hin. }
    by apply IH.
Qed.
End Executemany.

Lemma select_verification_pids conn batch_id :
  NoDup (map Payment.id (farmer_payments conn)) ->
  NoDup (map (fun r : Z * option string * option string => r.1.1)
             (select_verification conn batch_id)).
Proof.
  intros Hnodup. unfold select_verification. rewrite map_map. cbn.
  apply (sublist_NoDup _ _ Hnodup).
  apply (fmap_sublist Payment.id), sublist_filter.
Qed.

Lemma select_verification_in conn batch_id p :
  p ∈ farmer_payments conn -> Payment.batch_id p = batch_id ->
  (Payment.id p, Payment.verification_status p, Payment.verification_reason p)
    ∈ select_verification conn batch_id.
Proof.
  intros Hin Hb. unfold select_verification.
  apply (list_elem_of_fmap_2 (fun p => (Payment.id p, Payment.verification_status p,
                                       Payment.verification_reason p))).
  by apply list_elem_of_filter.
Qed.


Lemma executemany_row set us conn i p a b :
  (forall a b p, Payment.id (set a b p) = Payment.id p) ->
  NoDup (map snd us) -> (a, b, Payment.id p) ∈ us ->
  farmer_payments conn !! i = Some p ->
  farmer_payments (executemany (statement set) conn us) !! i = Some (set a b p).
Proof.
  intros Hid Hnodup Hin Hp. unfold executemany; cbn.
  rewrite fold_left_statement, list_lookup_fmap, Hp. cbn.
  f_equal. by apply written_own.
Qed.


(** ** The settlement pass *)

Lemma answers_pids body rows us :
  (forall r g0, snd (body r g0) = r.1.1) ->
  answers body rows us ->
  map snd us = map (fun r : Z * option string * option string => r.1.1) rows.
Proof.
  intros Hpid Hall. induction Hall as [|r u rows us [g0 ->] _ IH]; cbn; [done|].
  by rewrite Hpid, IH.
Qed.

Lemma answers_in body rows us r :
  answers body rows us -> r ∈ rows -> exists g0, body r g0 ∈ us.
Proof.
  intros Hall Hr. apply list_elem_of_lookup in Hr as [i Hi].
  destruct (Forall2_lookup_l _ _ _ _ _ Hall Hi) as (u & Hu & g0 & ->).
  exists g0. apply list_elem_of_lookup. by exists i.
Qed.

Lemma settle_loop_answers rows g :
  answers (fun r g0 => (settle_row r g0).1.1) rows (settle_loop rows g).1.1.1.
Proof.
  revert g. induction rows as [|r rows IH]; intros g; cbn [settle_loop].
  { constructor. }
  destruct (settle_row r g) as [[u outcome] g1] eqn:Hrow.
  specialize (IH g1). destruct (settle_loop rows g1) as [[[us success] failed] g2].
  cbn [fst] in *. constructor; [|exact IH]. exists g. by rewrite Hrow.
Qed.

Lemma settle_row_pid r g : snd (settle_row r g).1.1 = r.1.1.
Proof.
  destruct r as [[pid vs] vr]. unfold settle_row.
  destruct (py_eq vs "failed"); [done|].
  destruct (random_random g) as [x g1]. destruct (PrimFloat.ltb x 0.95); [done|].
  by destruct (random_choice settlement_reasons g1).
Qed.

(** C2. A row of the batch whose verification status is [failed] when the
    settlement pass runs is never marked paid: whatever the random source
    holds, the pass gives it the settlement status [failed] and the failure
    reason "Verification Failed: " followed by its verification reason, and
    changes nothing else in it; for the reason "Account Closed" that is
    "Verification Failed: Account Closed". *)
Theorem settlement_fails_unverified_rows (conn : Database) (batch_id : Z)
    (g : Rng) (i : nat) (p : Payment.row) :
  NoDup (map Payment.id (farmer_payments conn)) ->
  farmer_payments conn !! i = Some p ->
  Payment.batch_id p = batch_id ->
  Payment.verification_status p = Some "failed" ->
  exists p',
    farmer_payments (settlement_pass conn batch_id g).1.1.1 !! i = Some p'
    /\ p' = Payment.with_settlement (Some "failed")
              (Some ("Verification Failed: " +:+ py_str (Payment.verification_reason p))) p
    /\ Payment.status p' = Some "failed"
    /\ Payment.status p' <> Some "paid"
    /\ (forall reason, Payment.verification_reason p = Some reason ->
          Payment.failure_reason p' = Some ("Verification Failed: " +:+ reason))
    /\ (Payment.verification_reason p = Some "Account Closed" ->
          Payment.failure_reason p' = Some "Verification Failed: Account Closed").
Proof.
  intros Hnodup Hp Hb Hfailed.
  eexists. split; [|split; [reflexivity|]].
  - unfold settlement_pass.
    pose proof (settle_loop_answers (select_verification conn batch_id) g) as Hall.
    destruct (settle_loop (select_verification conn batch_id) g)
      as [[[payments success] failed] g'].
    cbn [fst] in *.
    apply (executemany_row Payment.with_settlement); [done| | |exact Hp].
    + rewrite (answers_pids _ _ _ (fun r g0 => settle_row_pid r g0) Hall).
      by apply select_verification_pids.
    + assert (p ∈ farmer_payments conn) as Hin.
      { apply list_elem_of_lookup. by exists i. }
      pose proof (select_verification_in conn batch_id p Hin Hb) as Hsel.
      destruct (answers_in _ _ _ _ Hall Hsel) as [g0 Hu].
      unfold settle_row in Hu. rewrite Hfailed in Hu. exact Hu.
  - cbn. split; [done|]. split; [done|]. split.
    + intros reason ->. reflexivity.
    + intros ->. reflexivity.
Qed.

(** ** The admin recheck pass *)

Lemma recheck_loop_answers rows g :
  answers (fun r g0 => (recheck_row r g0).1.1) rows (recheck_loop rows g).1.1.1.
Proof.
  revert g. induction rows as [|r rows IH]; intros g; cbn [recheck_loop].
  { constructor. }
  destruct (recheck_row r g) as [[u is_failed] g1] eqn:Hrow.
  specialize (IH g1). destruct (recheck_loop rows g1) as [[[us total] failed] g2].
  cbn [fst] in *. constructor; [|exact IH]. exists g. by rewrite Hrow.
Qed.

Lemma recheck_row_pid r g : snd (recheck_row r g).1.1 = r.1.1.
Proof.
  destruct r as [[pid vs] vr]. unfold recheck_row.
  destruct (py_eq vs "verified").
  - destruct (random_random g) as [x g1]. destruct (PrimFloat.ltb x 0.20); [|done].
    by destruct (random_choice recheck_reasons g1).
  - by destruct (py_eq vs "failed").
Qed.

(** A row of the batch gets the answer the loop body gives for it, provided
    the body answers the same at every state of the random source. *)
Lemma recheck_pass_row conn batch_id g i p a b :
  NoDup (map Payment.id (farmer_payments conn)) ->
  farmer_payments conn !! i = Some p ->
  Payment.batch_id p = batch_id ->
  (forall g0, (recheck_row (Payment.id p, Payment.verification_status p,
                            Payment.verification_reason p) g0).1.1
              = (a, b, Payment.id p)) ->
  farmer_payments (admin_recheck_pass conn batch_id g).1.1.1 !! i
    = Some (Payment.with_verification a b p).
Proof.
  intros Hnodup Hp Hb Hrow. unfold admin_recheck_pass.
  pose proof (recheck_loop_answers (select_verification conn batch_id) g) as Hall.
  destruct (recheck_loop (select_verification conn batch_id) g)
    as [[[updates total] failed] g'].
  cbn [fst] in *.
  apply (executemany_row Payment.with_verification); [done| | |exact Hp].
  - rewrite (answers_pids _ _ _ (fun r g0 => recheck_row_pid r g0) Hall).
    by apply select_verification_pids.
  - assert (p ∈ farmer_payments conn) as Hin.
    { apply list_elem_of_lookup. by exists i. }
    pose proof (select_verification_in conn batch_id p Hin Hb) as Hsel.
    destruct (answers_in _ _ _ _ Hall Hsel) as [g0 Hu].
    cbn beta in Hu. by rewrite Hrow in Hu.
Qed.

(** C6. A row of the batch that enters the admin recheck pass [failed] leaves
    it [failed]: the loop draws nothing for it and writes back [failed] with
    the reason it had when that reason is present (a non-empty text), and with
    the uncorrected marker otherwise; nothing else of the row changes. *)
Theorem recheck_keeps_failed_rows (conn : Database) (batch_id : Z) (g : Rng)
    (i : nat) (p : Payment.row) :
  NoDup (map Payment.id (farmer_payments conn)) ->
  farmer_payments conn !! i = Some p ->
  Payment.batch_id p = batch_id ->
  Payment.verification_status p = Some "failed" ->
  let kept :=
    if py_truthy (Payment.verification_reason p)
    then py_str (Payment.verification_reason p)
    else "Pre-verified Failed (Uncorrected)" in
  farmer_payments (admin_recheck_pass conn batch_id g).1.1.1 !! i
    = Some (Payment.with_verification (Some "failed") (Some kept) p)
  /\ (forall reason, Payment.verification_reason p = Some reason ->
        reason <> "" -> kept = reason)
  /\ (Payment.verification_reason p = None \/
      Payment.verification_reason p = Some "" ->
        kept = "Pre-verified Failed (Uncorrected)")
  /\ (forall g0,
        (recheck_row (Payment.id p, Payment.verification_status p,
                      Payment.verification_reason p) g0).2 = g0).
Proof.
  intros Hnodup Hp Hb Hfailed kept. split; [|split; [|split]].
  - apply recheck_pass_row; try done.
    intros g0. unfold recheck_row. rewrite Hfailed. reflexivity.
  - intros reason Hr Hne. subst kept. rewrite Hr. by destruct reason.
  - intros [Hr | Hr]; subst kept; by rewrite Hr.
  - intros g0. unfold recheck_row. rewrite Hfailed. reflexivity.
Qed.

(** C10. A row of the batch whose verification status is neither [verified]
    nor [failed] when the admin recheck pass runs (an [unverified] one, say)
    is written back [verified] with its reason cleared, and the loop takes no
    draw from the random source for it. *)
Theorem recheck_verifies_unclassified_rows (conn : Database) (batch_id : Z)
    (g : Rng) (i : nat) (p : Payment.row) :
  NoDup (map Payment.id (farmer_payments conn)) ->
  farmer_payments conn !! i = Some p ->
  Payment.batch_id p = batch_id ->
  Payment.verification_status p <> Some "verified" ->
  Payment.verification_status p <> Some "failed" ->
  farmer_payments (admin_recheck_pass conn batch_id g).1.1.1 !! i
    = Some (Payment.with_verification (Some "verified") None p)
  /\ (forall g0,
        recheck_row (Payment.id p, Payment.verification_status p,
                     Payment.verification_reason p) g0
        = ((Some "verified", None, Payment.id p), false, g0)).
Proof.
  intros Hnodup Hp Hb Hnv Hnf.
  assert (py_eq (Payment.verification_status p) "verified" = false) as Hv.
  { destruct (Payment.verification_status p) as [s|]; [|done]. cbn.
    apply String.eqb_neq. congruence. }
  assert (py_eq (Payment.verification_status p) "failed" = false) as Hf.
  { destruct (Payment.verification_status p) as [s|]; [|done]. cbn.
    apply String.eqb_neq. congruence. }
  assert (forall g0,
        recheck_row (Payment.id p, Payment.verification_status p,
                     Payment.verification_reason p) g0
        = ((Some "verified", None, Payment.id p), false, g0)) as Hrow.
  { intros g0. unfold recheck_row. by rewrite Hv, Hf. }
  split; [|exact Hrow].
  apply recheck_pass_row; try done. intros g0. by rewrite Hrow.
Qed.

(** ** The pipeline: what a finalize step leaves behind *)






Lemma find_map_invariant {A : Type} (P : A -> bool) (f : A -> A) (l : list A) :
  (forall x, P (f x) = P x) -> find P (map f l) = option_map f (find P l).
Proof.
  intros HP. induction l as [|x l IH]; cbn; [done|].
  rewrite HP. destruct (P x); [done|exact IH].
Qed.







(** ** The batch lifecycle *)







Section Lifecycle.
Context `{PyLib}.

Lemma check_user_pin_run user_id pin w :
  exists matched, check_user_pin user_id pin w = (Ok matched, w).
Proof.
  unfold check_user_pin. run_M.
  destruct (find _ (users (db w))); eexists; reflexivity.
Qed.





End Lifecycle.


(** ** Authorization sessions *)

Section SessionProperties.
Context `{PyLib}.
Variable session_data : Session.t.







Lemma play_sound st0 evs st log log' st' :
  auth_run session_data st0 log st ->
  play session_data evs st log = Some (log', st') ->
  auth_run session_data st0 log' st'.
Proof.
  revert st log. induction evs as [|ev evs IH]; intros st log Hrun Hplay; cbn in Hplay.
  - by injection Hplay as <- <-.
  - destruct (auth_step session_data ev st) as [[o st1]|] eqn:Hstep; [|done].
    apply (IH st1 (log ++ [mkEntry st ev o])); [|exact Hplay].
    by apply auth_run_snoc.
Qed.


End SessionProperties.

(** * The reference scenario, replayed *)

Example scenario_submitted :
  map Batch.status (submission_batches (db world_submitted)) = [coop_submitted]
  /\ map Invoice.invoice_reference (invoices (db world_submitted))
     = ["CORECU-0001-2025"]
  /\ map Invoice.amount_usd (invoices (db world_submitted)) = [3%float]
  /\ map Payment.id (farmer_payments (db world_submitted)) = [1; 2].
Proof. vm_compute. done. Qed.

Example scenario_authorized :
  map (fun e => led_to e) approval_log
  = [ session_opened 1; input_changed; passphrase_matched; input_changed;
      input_changed; input_changed; input_changed; input_changed;
      input_changed; authorized 1 ]
  /\ map Batch.status (submission_batches (db world_authorized))
     = [pending_admin_approval].
Proof. vm_compute. done. Qed.

Example scenario_settled :
  map Batch.status (submission_batches (db world_settled)) = [processed]
  /\ map Payment.status (farmer_payments (db world_settled))
     = [Some "paid"; Some "paid"]
  /\ map Invoice.payment_commission_usd (invoices (db world_settled))
     = [Some 10%float]
  /\ map Invoice.payment_commission_reference (invoices (db world_settled))
     = [Some "CP-PAY-CORECU-1"]
  /\ length (payment_history (db world_settled)) = 1%nat.
Proof. vm_compute. done. Qed.

(** The string helpers on the names and numbers the ledger formats. *)
Example string_helpers :
  py_split "  Corecu   Ltd " = ["Corecu"; "Ltd"]
  /\ py_split "   " = []
  /\ coop_short "tamcu ltd" = Some "TAMCU"
  /\ py_format_04d 7 = "0007"
  /\ py_format_04d 12345 = "12345"
  /\ py_str_int 42 = "42".
Proof. vm_compute. done. Qed.

(** * The theorems at the reference scenario *)

Lemma submit_rejected_while_failed_witness :
  table_row "Baraka Said" "0110002" 400000%float "failed" (CStr "Account Closed")
    ∈ rejected_table
  /\ table_row "Baraka Said" "0110002" 400000%float "failed" (CStr "Account Closed")
       !! "verification_status" = Some (CStr "failed")
  /\ exists msg is_open color,
       submit_to_approver (H := reference_lib) (Some 1) rejected_table
         upload_store uploader_session None world_submitted
       = (Ok (msg, is_open, color, no_update, no_update), world_submitted)
       /\ (truthy_int (Some 1) = true ->
           Session.role uploader_session = "coop_uploader" ->
           msg = "Submission Rejected: Please correct all verification failures before submitting.").
Proof.
  assert (table_row "Baraka Said" "0110002" 400000%float "failed"
            (CStr "Account Closed") ∈ rejected_table) as Hin.
  { apply list_elem_of_lookup. exists 1%nat. reflexivity. }
  assert (table_row "Baraka Said" "0110002" 400000%float "failed"
            (CStr "Account Closed") !! "verification_status"
          = Some (CStr "failed")) as Hfailed.
  { reflexivity. }
  split; [exact Hin|]. split; [exact Hfailed|].
  exact (submit_rejected_while_failed (H := reference_lib) (Some 1) rejected_table
           upload_store uploader_session None world_submitted _ Hin Hfailed).
Defined.



Lemma simulate_bank_verification_frame_witness :
  (forall col, col ∈ required_columns -> col ∈ columns upload_frame)
  /\ exists df' g',
       simulate_bank_verification upload_frame (mkRng reference_tape 0) = (Some df', g')
       /\ length (records df') = 1%nat.
Proof.
  assert (forall col, col ∈ required_columns -> col ∈ columns upload_frame) as Hcols.
  { intros col Hcol. unfold required_columns in Hcol. cbn.
    repeat (apply elem_of_cons in Hcol as [-> | Hcol]; [set_solver|]).
    by apply elem_of_nil in Hcol. }
  split; [exact Hcols|].
  destruct (simulate_bank_verification_frame upload_frame
              (mkRng reference_tape 0) Hcols) as (df' & g' & Hrun & Hlen & _).
  exists df', g'. split; [exact Hrun|exact Hlen].
Defined.

Lemma mixed_rows_keys : NoDup (map Payment.id (farmer_payments mixed_rows)).
Proof. apply (bool_decide_unpack _). vm_compute. exact I. Qed.

Lemma settlement_fails_unverified_rows_witness :
  NoDup (map Payment.id (farmer_payments mixed_rows))
  /\ exists p p',
       farmer_payments mixed_rows !! 0%nat = Some p
       /\ Payment.batch_id p = 7
       /\ Payment.verification_status p = Some "failed"
       /\ farmer_payments
            (settlement_pass mixed_rows 7 (mkRng reference_tape 0)).1.1.1 !! 0%nat
          = Some p'
       /\ Payment.status p' = Some "failed"
       /\ Payment.failure_reason p' = Some "Verification Failed: Account Closed".
Proof.
  split; [exact mixed_rows_keys|].
  destruct (farmer_payments mixed_rows !! 0%nat) as [p|] eqn:Hp; [|discriminate].
  assert (Payment.batch_id p = 7) as Hb by (injection Hp as <-; reflexivity).
  assert (Payment.verification_status p = Some "failed") as Hfailed
    by (injection Hp as <-; reflexivity).
  assert (Payment.verification_reason p = Some "Account Closed") as Hreason
    by (injection Hp as <-; reflexivity).
  destruct (settlement_fails_unverified_rows mixed_rows 7 (mkRng reference_tape 0)
              0%nat p mixed_rows_keys Hp Hb Hfailed)
    as (p' & Hp' & _ & Hstatus & _ & _ & Hclosed).
  exists p, p'. repeat split; try done. by apply Hclosed.
Defined.

Lemma recheck_keeps_failed_rows_witness :
  NoDup (map Payment.id (farmer_payments mixed_rows))
  /\ exists p,
       farmer_payments mixed_rows !! 0%nat = Some p
       /\ Payment.batch_id p = 7
       /\ Payment.verification_status p = Some "failed"
       /\ farmer_payments
            (admin_recheck_pass mixed_rows 7 (mkRng reference_tape 0)).1.1.1 !! 0%nat
          = Some (Payment.with_verification (Some "failed")
                    (Some "Account Closed") p).
Proof.
  split; [exact mixed_rows_keys|].
  destruct (farmer_payments mixed_rows !! 0%nat) as [p|] eqn:Hp; [|discriminate].
  assert (Payment.batch_id p = 7) as Hb by (injection Hp as <-; reflexivity).
  assert (Payment.verification_status p = Some "failed") as Hfailed
    by (injection Hp as <-; reflexivity).
  assert (Payment.verification_reason p = Some "Account Closed") as Hreason
    by (injection Hp as <-; reflexivity).
  destruct (recheck_keeps_failed_rows mixed_rows 7 (mkRng reference_tape 0)
              0%nat p mixed_rows_keys Hp Hb Hfailed) as (Hrow & Hkept & _).
  exists p. repeat split; try done.
  rewrite Hrow. by rewrite (Hkept "Account Closed" Hreason).
Defined.

Lemma recheck_verifies_unclassified_rows_witness :
  NoDup (map Payment.id (farmer_payments mixed_rows))
  /\ exists p,
       farmer_payments mixed_rows !! 1%nat = Some p
       /\ Payment.batch_id p = 7
       /\ Payment.verification_status p = Some "unverified"
       /\ farmer_payments
            (admin_recheck_pass mixed_rows 7 (mkRng reference_tape 0)).1.1.1 !! 1%nat
          = Some (Payment.with_verification (Some "verified") None p).
Proof.
  split; [exact mixed_rows_keys|].
  destruct (farmer_payments mixed_rows !! 1%nat) as [p|] eqn:Hp; [|discriminate].
  assert (Payment.batch_id p = 7) as Hb by (injection Hp as <-; reflexivity).
  assert (Payment.verification_status p = Some "unverified") as Hstatus
    by (injection Hp as <-; reflexivity).
  assert (Payment.verification_status p <> Some "verified") as Hnv
    by (rewrite Hstatus; discriminate).
  assert (Payment.verification_status p <> Some "failed") as Hnf
    by (rewrite Hstatus; discriminate).
  destruct (recheck_verifies_unclassified_rows mixed_rows 7
              (mkRng reference_tape 0) 1%nat p mixed_rows_keys Hp Hb Hnv Hnf)
    as (Hrow & _).
  exists p. repeat split; try done.
Defined.








(** * Further properties of the handlers *)

(** ** Session obfuscation *)

Lemma xor_char_involutive (c : ascii) : xor_char 42 (xor_char 42 c) = c.
Proof. destruct c as [[] [] [] [] [] [] [] []]; reflexivity. Qed.

Lemma obfuscate_involutive (s : string) : obfuscate (obfuscate s) = s.
Proof.
  induction s as [|c s IH]; cbn [obfuscate]; [done|].
  by rewrite xor_char_involutive, IH.
Qed.

Lemma obfuscate_length (s : string) :
  String.length (obfuscate s) = String.length s.
Proof. induction s as [|c s IH]; cbn [obfuscate String.length]; congruence. Qed.

(** X1. Obfuscating twice gives the text back and keeps its length, so a
    session that [json.loads] reads back from its [json.dumps] text survives
    [serialize_session] followed by [deserialize_session]; no session stays no
    session both ways. *)
Theorem session_round_trip (json_dumps : Session.t -> string)
    (json_loads : string -> option Session.t) (session_data : Session.t) :
  json_loads (json_dumps session_data) = Some session_data ->
  deserialize_session json_loads
    (serialize_session json_dumps (Some session_data)) = Some session_data
  /\ (forall s, obfuscate (obfuscate s) = s
                /\ String.length (obfuscate s) = String.length s)
  /\ serialize_session json_dumps None = None
  /\ deserialize_session json_loads None = None.
Proof.
  intros Hjson. split; [|split; [|done]].
  - cbn. by rewrite obfuscate_involutive.
  - intros s. split; [apply obfuscate_involutive|apply obfuscate_length].
Qed.

(** ** The dialpad *)

Lemma substring_prefix_length (n : nat) (s : string) :
  String.length (String.substring 0 n s) = Nat.min n (String.length s).
Proof.
  revert n. induction s as [|c s IH]; intros [|n]; cbn; try done.
  by rewrite IH.
Qed.

Lemma drop_last_length (s : string) :
  String.length (drop_last s) = (String.length s - 1)%nat.
Proof. unfold drop_last. rewrite substring_prefix_length. lia. Qed.

Lemma string_app_length (s t : string) :
  String.length (s +:+ t) = (String.length s + String.length t)%nat.
Proof.
  induction s as [|c s IH]; [reflexivity|].
  change (String c s +:+ t) with (String c (s +:+ t)). cbn. f_equal. exact IH.
Qed.

Lemma substring_prefix_app (s t : string) :
  String.substring 0 (String.length s) (s +:+ t) = s.
Proof.
  induction s as [|c s IH].
  - by destruct t.
  - change (String c s +:+ t) with (String c (s +:+ t)). cbn. f_equal. exact IH.
Qed.

(** X2. A press on the pad always yields a buffer (the same value for the
    store and for the display), and a buffer of at most six characters stays
    at most six characters long whatever one-character button is pressed;
    [C] empties it and [<] on the empty buffer leaves it empty. *)
Theorem dialpad_keeps_six (n_clicks : list (option Z))
    (button current_pin : string) :
  existsb truthy_int n_clicks = true ->
  String.length button = 1%nat ->
  (String.length current_pin <= 6)%nat ->
  exists new_pin,
    update_pin_from_dialpad n_clicks (Some button) (Some current_pin)
      = Ok (new_pin, new_pin)
    /\ (String.length new_pin <= 6)%nat
    /\ (button = "C" -> new_pin = "")
    /\ (button = "<" -> current_pin = "" -> new_pin = "").
Proof.
  intros Hclicks Hbutton Hlen. unfold update_pin_from_dialpad. rewrite Hclicks.
  cbn [negb default from_option id].
  eexists. split; [reflexivity|].
  destruct (String.eqb button "C") eqn:HC.
  { apply String.eqb_eq in HC. subst button. cbn.
    split; [lia|]. split; [done|]. discriminate. }
  destruct (String.eqb button "<") eqn:HB.
  { apply String.eqb_eq in HB. subst button.
    split; [rewrite drop_last_length; lia|]. split; [discriminate|].
    by intros _ ->. }
  apply String.eqb_neq in HC, HB.
  destruct (String.length current_pin <? 6)%nat eqn:Hfull.
  - apply Nat.ltb_lt in Hfull. rewrite string_app_length.
    split; [lia|]. split; intros ?; congruence.
  - split; [lia|]. split; intros ?; congruence.
Qed.

(** X3. A digit entered while fewer than six are held is taken back by the
    next press of [<]: the buffer is what it was. *)
Theorem dialpad_backspace_undoes (n_clicks : list (option Z))
    (button current_pin : string) :
  existsb truthy_int n_clicks = true ->
  String.length button = 1%nat ->
  button <> "C" -> button <> "<" ->
  (String.length current_pin < 6)%nat ->
  exists entered,
    update_pin_from_dialpad n_clicks (Some button) (Some current_pin)
      = Ok (entered, entered)
    /\ entered = current_pin +:+ button
    /\ update_pin_from_dialpad n_clicks (Some "<") (Some entered)
       = Ok (current_pin, current_pin).
Proof.
  intros Hclicks Hbutton HC HB Hlen. unfold update_pin_from_dialpad.
  rewrite Hclicks. cbn [negb default from_option id].
  apply String.eqb_neq in HC, HB. rewrite HC, HB.
  apply Nat.ltb_lt in Hlen. rewrite Hlen.
  eexists. split; [reflexivity|]. split; [reflexivity|].
  cbn [String.eqb Ascii.eqb Bool.eqb].
  unfold drop_last. rewrite string_app_length, Hbutton.
  replace (String.length current_pin + 1 - 1)%nat with (String.length current_pin) by lia.
  by rewrite substring_prefix_app.
Qed.

(** ** The two secrets *)

Section SecretProperties.
Context `{PyLib}.

(** X4. The passphrase step never writes: whatever is submitted, the world is
    left as it was (no attempt counter, no log entry), and the step moves on
    to the PIN only when the account of the session exists and stores the hash
    of the submitted passphrase; an account without a passphrase never
    passes. *)
Theorem passphrase_step_only_reads (n_clicks : option Z) (passphrase : string)
    (session_data : Session.t) (w : World) :
  snd (handle_passphrase_step n_clicks passphrase session_data w) = w
  /\ forall o,
       fst (handle_passphrase_step n_clicks passphrase session_data w) = Ok o ->
       (out_step o = "pin" \/ out_step_authorize_style o = display_block) ->
       exists u,
         find (fun u => User.id u =? Session.id session_data) (users (db w)) = Some u
         /\ User.passphrase u = Some (sha256_hexdigest passphrase).
Proof.
  unfold handle_passphrase_step.
  destruct (truthy_int n_clicks); cbn [negb]; [|by split].
  unfold check_user_passphrase. run_M.
  destruct (find _ (users (db w))) as [u|] eqn:Hu; cbn.
  - unfold stored_secret_matches.
    destruct (User.passphrase u) as [stored|] eqn:Hstored; cbn.
    + destruct (String.eqb stored (sha256_hexdigest passphrase)) eqn:Heq; cbn.
      * apply String.eqb_eq in Heq. subst. split; [done|]. intros o _ _. by exists u.
      * split; [done|]. intros o [= <-]. cbn. by intros [|].
    + split; [done|]. intros o [= <-]. cbn. by intros [|].
  - split; [done|]. intros o [= <-]. cbn. by intros [|].
Qed.

(** X5. The PIN step changes the world only on a match: unless the account of
    the session exists and stores the hash of the submitted PIN, the step
    leaves the world as it was (no attempt counter, no log entry), hands no
    batch to the pipeline, and empties the PIN buffer. *)
Theorem pin_step_rejects_without_writing (n_clicks : option Z) (pin : string)
    (payment_data : option PaymentData) (session_data : Session.t) (w : World) :
  (forall u,
     find (fun u => User.id u =? Session.id session_data) (users (db w)) = Some u ->
     User.pin u <> Some (sha256_hexdigest pin)) ->
  snd (handle_pin_step n_clicks pin payment_data session_data w) = w
  /\ forall o,
       fst (handle_pin_step n_clicks pin payment_data session_data w) = Ok o ->
       out_batch_to_process o = no_update
       /\ out_payment_modal_is_open o = no_update
       /\ out_pin_input_store o = "" /\ out_auth_pin_input o = "".
Proof.
  intros Hno. unfold handle_pin_step.
  destruct payment_data as [data|]; [|by split].
  destruct (truthy_int n_clicks); cbn [negb]; [|by split].
  assert (check_user_pin (Session.id session_data) pin w = (Ok false, w)) as Hpin.
  { unfold check_user_pin. run_M.
    destruct (find _ (users (db w))) as [u|] eqn:Hu; [|done].
    specialize (Hno u eq_refl). unfold stored_secret_matches.
    destruct (User.pin u) as [stored|]; [|done].
    destruct (String.eqb stored (sha256_hexdigest pin)) eqn:Heq; [|done].
    apply String.eqb_eq in Heq. congruence. }
  unfold mbind, M_bind. rewrite Hpin. cbn. split; [done|].
  by intros o [= <-].
Qed.
End SecretProperties.

Lemma log_activity_entry user_id action details w :
  exists l,
    log_activity user_id action details w
    = (Ok tt,
       mkWorld (mkDB (users (db w)) (submission_batches (db w))
                  (farmer_payments (db w)) (invoices (db w))
                  (payment_history (db w)) (activity_logs (db w) ++ [l]))
               (rng w) (mkClock (times (clock w)) (S (reads (clock w)))))
    /\ Log.user_id l = user_id /\ Log.action l = action
    /\ Log.details l = details
    /\ Log.id l = next_rowid (map Log.id (activity_logs (db w)))
    /\ Log.cooperative_name l
       = match find (fun u => User.id u =? user_id) (users (db w)) with
         | Some u => User.cooperative_name u
         | None => "System"
         end.
Proof. run_M. eexists. split; [reflexivity|]. done. Qed.

Lemma map_fixed {A : Type} (f : A -> A) (l : list A) :
  (forall x, x ∈ l -> f x = x) -> map f l = l.
Proof.
  induction l as [|x l IH]; intros Hf; cbn; [done|].
  rewrite Hf by left. f_equal. apply IH. intros y Hy. apply Hf. by right.
Qed.

Section AuthorizationEffect.
Context `{PyLib}.

(** X6. An authorization that passes the PIN check writes one log entry and
    one guarded status update and nothing else: a batch moves to
    pending_admin_approval exactly when it carries the authorized id and
    stands at coop_submitted, every other batch, every row, invoice and
    payment-history entry and the random source stay as they were; so
    authorizing a batch that is no longer at coop_submitted changes no status
    at all. *)
Theorem authorization_touches_one_batch (n_clicks : option Z) (pin : string)
    (data : PaymentData) (session_data : Session.t) (w : World) (u : User.row) :
  truthy_int n_clicks = true ->
  find (fun u => User.id u =? Session.id session_data) (users (db w)) = Some u ->
  User.pin u = Some (sha256_hexdigest pin) ->
  let w' := snd (handle_pin_step n_clicks pin (Some data) session_data w) in
  submission_batches (db w')
  = map (fun b =>
           if (Batch.id b =? pd_batch_id data) &&
              match Batch.status b with coop_submitted => true | _ => false end
           then Batch.with_status pending_admin_approval b else b)
        (submission_batches (db w))
  /\ users (db w') = users (db w)
  /\ farmer_payments (db w') = farmer_payments (db w)
  /\ invoices (db w') = invoices (db w)
  /\ payment_history (db w') = payment_history (db w)
  /\ rng w' = rng w
  /\ (exists l, activity_logs (db w') = activity_logs (db w) ++ [l]
                /\ Log.action l = "Payment Authorized"
                /\ Log.user_id l = Session.id session_data)
  /\ ((forall b, b ∈ submission_batches (db w) -> Batch.id b = pd_batch_id data ->
                 Batch.status b <> coop_submitted) ->
      submission_batches (db w') = submission_batches (db w)).
Proof.
  intros Hclicks Hu Hstored w'.
  assert (check_user_pin (Session.id session_data) pin w = (Ok true, w)) as Hpin.
  { unfold check_user_pin. run_M. rewrite Hu. unfold stored_secret_matches.
    rewrite Hstored. by rewrite String.eqb_refl. }
  assert (w' = snd (handle_pin_step n_clicks pin (Some data) session_data w))
    as Hw' by reflexivity.
  clearbody w'. unfold handle_pin_step in Hw'. rewrite Hclicks in Hw'.
  cbn [negb] in Hw'. unfold mbind at 1 in Hw'. unfold M_bind at 1 in Hw'.
  rewrite Hpin in Hw'.
  destruct (log_activity_entry (Session.id session_data) "Payment Authorized"
              ("Two-step auth passed for Batch ID: " +:+
               py_str_int (pd_batch_id data)) w)
    as (l & Hlog & Huser & Haction & _).
  unfold mbind at 1 in Hw'. unfold M_bind at 1 in Hw'. rewrite Hlog in Hw'.
  unfold mbind, M_bind, get_db_connection, commit, from_option in Hw'.
  cbn [db fst snd] in Hw'.
  match type of Hw' with
  | context [find_batch ?c ?b] => destruct (find_batch c b)
  end; cbn in Hw'; subst w'; cbn.
  all: repeat split; try done; try (by exists l).
  all: intros Hnone; apply map_fixed; intros b Hb;
    destruct (Batch.id b =? pd_batch_id data) eqn:Hid; [|done];
    apply Z.eqb_eq in Hid;
    specialize (Hnone b Hb Hid); by destruct (Batch.status b).
Qed.
End AuthorizationEffect.

(** ** The pipeline *)

Lemma settle_loop_counts rows g :
  let '((us, success, failed), _) := settle_loop rows g in
  length us = length rows
  /\ 0 <= success /\ 0 <= failed
  /\ success + failed = Z.of_nat (length rows)
  /\ Z.of_nat (length (filter (fun r : Z * option string * option string =>
                                 r.1.2 = Some "failed") rows)) <= failed.
Proof.
  revert g. induction rows as [|[[pid vs] vr] rows IH]; intros g; cbn [settle_loop].
  { cbn. lia. }
  unfold settle_row.
  destruct (py_eq vs "failed") eqn:Hvs.
  - specialize (IH g). destruct (settle_loop rows g) as [[[us s] f] g2].
    rewrite filter_cons. cbn [fst snd length].
    destruct (decide (vs = Some "failed")); cbn [length]; lia.
  - assert (vs <> Some "failed") as Hne.
    { intros ->. cbn in Hvs. discriminate. }
    destruct (random_random g) as [x g1].
    destruct (PrimFloat.ltb x 0.95).
    + specialize (IH g1). destruct (settle_loop rows g1) as [[[us s] f] g2].
      rewrite filter_cons. cbn [fst snd length].
      destruct (decide (vs = Some "failed")); [done|]. lia.
    + destruct (random_choice settlement_reasons g1) as [reason g2].
      specialize (IH g2). destruct (settle_loop rows g2) as [[[us s] f] g3].
      rewrite filter_cons. cbn [fst snd length].
      destruct (decide (vs = Some "failed")); [done|]. lia.
Qed.

(** X7. The settlement pass counts every row of the batch once: the numbers
    of successes and failures it reports are non-negative and add up to the
    number of rows that carry the batch id, and the failures are at least the
    rows that entered the pass with a failed verification. *)
Theorem settlement_counts_add_up (conn : Database) (batch_id : Z) (g : Rng) :
  let '((_, success, failed), _) := settlement_pass conn batch_id g in
  let batch_rows := filter (fun p => Payment.batch_id p = batch_id)
                           (farmer_payments conn) in
  0 <= success /\ 0 <= failed
  /\ success + failed = Z.of_nat (length batch_rows)
  /\ Z.of_nat (length (filter (fun p => Payment.verification_status p = Some "failed")
                              batch_rows)) <= failed.
Proof.
  unfold settlement_pass.
  pose proof (settle_loop_counts (select_verification conn batch_id) g) as Hcounts.
  destruct (settle_loop (select_verification conn batch_id) g)
    as [[[us success] failed] g'].
  destruct Hcounts as (_ & Hs & Hf & Hsum & Hfailed).
  unfold select_verification in Hsum, Hfailed.
  rewrite length_map in Hsum.
  split; [done|]. split; [done|]. split; [done|].
  etransitivity; [|exact Hfailed].
  apply Nat2Z.inj_le.
  generalize (filter (fun p => Payment.batch_id p = batch_id) (farmer_payments conn)).
  induction l as [|p l IHl]; [done|].
  rewrite map_cons, !filter_cons. cbn [fst snd].
  destruct (decide (Payment.verification_status p = Some "failed")); cbn [length]; lia.
Qed.

Lemma recheck_loop_failed rows g :
  let '((us, total_count, failed_count), _) := recheck_loop rows g in
  total_count = Z.of_nat (length rows)
  /\ Z.of_nat (length (filter (fun r : Z * option string * option string =>
                                 r.1.2 = Some "failed") rows)) <= failed_count
  /\ failed_count <= total_count.
Proof.
  revert g. induction rows as [|[[pid vs] vr] rows IH]; intros g; cbn [recheck_loop].
  { cbn. lia. }
  unfold recheck_row.
  destruct (py_eq vs "verified") eqn:Hv.
  - assert (vs <> Some "failed") as Hne.
    { intros ->. cbn in Hv. discriminate. }
    destruct (random_random g) as [x g1].
    destruct (PrimFloat.ltb x 0.20).
    + destruct (random_choice recheck_reasons g1) as [reason g2].
      specialize (IH g2). destruct (recheck_loop rows g2) as [[[us t] f] g3].
      rewrite filter_cons. cbn [fst snd length].
      destruct (decide (vs = Some "failed")); [done|]. lia.
    + specialize (IH g1). destruct (recheck_loop rows g1) as [[[us t] f] g3].
      rewrite filter_cons. cbn [fst snd length].
      destruct (decide (vs = Some "failed")); [done|]. lia.
  - destruct (py_eq vs "failed") eqn:Hf.
    + specialize (IH g). destruct (recheck_loop rows g) as [[[us t] f] g3].
      rewrite filter_cons. cbn [fst snd length].
      destruct (decide (vs = Some "failed")); cbn [length]; lia.
    + assert (vs <> Some "failed") as Hne.
      { intros ->. cbn in Hf. discriminate. }
      specialize (IH g). destruct (recheck_loop rows g) as [[[us t] f] g3].
      rewrite filter_cons. cbn [fst snd length].
      destruct (decide (vs = Some "failed")); [done|]. lia.
Qed.

(** ** The two passes, row by row *)









(** ** A finalize step on a batch that cannot be found *)









(** ** Submission as a transaction *)


Section SubmissionProperties.
Context `{PyLib}.



End SubmissionProperties.

(** ** Accounts and credentials *)

Ltac denied := cbn; left; split; [by eexists|done].

Lemma random_randint_range a b g :
  a <= b -> a <= (random_randint a b g).1 <= b.
Proof.
  intros Hab. unfold random_randint, next_draw. cbn.
  pose proof (Z.mod_pos_bound (Z.of_N (entropy g (drawn g))) (b - a + 1)). lia.
Qed.

Section CredentialProperties.
Context `{PyLib}.

Lemma find_map_some {A : Type} (P : A -> bool) (f : A -> A) (l : list A) x :
  (forall y, P (f y) = P y) -> find P l = Some x -> find P (map f l) = Some (f x).
Proof. intros HP Hx. by rewrite find_map_invariant, Hx. Qed.

Lemma update_approver_credentials_run user_id new_password new_passphrase new_pin w :
  update_approver_credentials user_id new_password new_passphrase new_pin w
  = (Ok tt,
     mkWorld (set_credentials (db w) user_id (sha256_hexdigest new_password)
                (sha256_hexdigest new_passphrase) (sha256_hexdigest new_pin))
             (rng w) (clock w)).
Proof. reflexivity. Qed.

(** X13. Saved credentials are the ones that are checked.  After
    [update_approver_credentials] on an account that exists, the passphrase
    check and the PIN check of that account accept the new secrets and reject
    every attempt with another digest, the temporary password is cleared, the
    account keeps its id, name, role and cooperative, every account with
    another id is as before, and a login under the account's name (the first
    account of that name) with the new password yields its session. *)
Theorem saved_credentials_are_checked (user_id : Z)
    (new_password new_passphrase new_pin : string) (w : World) (u : User.row) :
  find (fun v => User.id v =? user_id) (users (db w)) = Some u ->
  exists w' u',
    update_approver_credentials user_id new_password new_passphrase new_pin w
    = (Ok tt, w')
    /\ find (fun v => User.id v =? user_id) (users (db w')) = Some u'
    /\ u' = User.mk (User.id u) (User.username u) (sha256_hexdigest new_password)
              (User.role u) (User.cooperative_name u) (User.industry u) None
              (Some (sha256_hexdigest new_passphrase))
              (Some (sha256_hexdigest new_pin))
    /\ check_user_passphrase user_id new_passphrase w' = (Ok true, w')
    /\ check_user_pin user_id new_pin w' = (Ok true, w')
    /\ (forall attempt,
          sha256_hexdigest attempt <> sha256_hexdigest new_passphrase ->
          check_user_passphrase user_id attempt w' = (Ok false, w'))
    /\ (forall attempt,
          sha256_hexdigest attempt <> sha256_hexdigest new_pin ->
          check_user_pin user_id attempt w' = (Ok false, w'))
    /\ (forall i v, users (db w) !! i = Some v -> User.id v <> user_id ->
          users (db w') !! i = Some v)
    /\ (find (fun v => String.eqb (User.username v) (User.username u))
             (users (db w)) = Some u ->
        authenticate_user (User.username u) new_password w'
        = (Ok (Some (Session.mk (User.id u) (User.username u) (User.role u)
                       (User.cooperative_name u) (User.industry u))), w')).
Proof.
  intros Hu. rewrite update_approver_credentials_run.
  set (f := fun v : User.row =>
              if User.id v =? user_id
              then User.mk (User.id v) (User.username v)
                     (sha256_hexdigest new_password) (User.role v)
                     (User.cooperative_name v) (User.industry v) None
                     (Some (sha256_hexdigest new_passphrase))
                     (Some (sha256_hexdigest new_pin))
              else v).
  assert (Hid : (User.id u =? user_id) = true).
  { apply find_some in Hu. tauto. }
  assert (Hfu : f u = User.mk (User.id u) (User.username u)
                        (sha256_hexdigest new_password) (User.role u)
                        (User.cooperative_name u) (User.industry u) None
                        (Some (sha256_hexdigest new_passphrase))
                        (Some (sha256_hexdigest new_pin))).
  { unfold f. by rewrite Hid. }
  assert (Hfind : find (fun v => User.id v =? user_id) (map f (users (db w)))
                  = Some (f u)).
  { apply find_map_some; [|exact Hu].
    intros y. unfold f. by destruct (User.id y =? user_id) eqn:Hy; cbn; rewrite ?Hy. }
  eexists _, (f u). split; [reflexivity|].
  unfold check_user_passphrase, check_user_pin, authenticate_user. run_M.
  fold f. rewrite Hfind, Hfu. cbn.
  rewrite !String.eqb_refl.
  split; [done|]. split; [done|]. split; [done|]. split; [done|].
  split. { intros attempt Hne. f_equal. f_equal. by apply String.eqb_neq. }
  split. { intros attempt Hne. f_equal. f_equal. by apply String.eqb_neq. }
  split.
  { intros i v Hv Hne. rewrite list_lookup_fmap, Hv. cbn. unfold f.
    apply Z.eqb_neq in Hne. by rewrite Hne. }
  intros Hname.
  rewrite (find_map_some _ f _ u); [|
    intros y; unfold f; by destruct (User.id y =? user_id) |exact Hname].
  rewrite Hfu. cbn. by rewrite String.eqb_refl.
Qed.
End CredentialProperties.

Section AccountProperties.
Context `{PyLib}.
Variable json_dumps : Session.t -> string.
Variable json_loads : string -> option Session.t.


(** X15. What [create_coop_user] writes.  Whatever the inputs, either the
    handler answers without the success colour and leaves the database as it
    was, or all of this holds: the session decodes to an administrator or an
    approver, the name, the cooperative and the role are filled, no account
    had the name, the cooperative's name has a token, and exactly one account
    is appended under a fresh rowid, with the given name, role and
    cooperative, the product or Not Specified, a temporary password made of
    the cooperative's short name and a drawn number between 10000 and 20000,
    stored in clear beside its digest, and the default passphrase and PIN
    digests exactly when the role is coop_approver.  One User Created log
    entry is appended, whose details end with the temporary password. *)
Theorem create_coop_user_outcome (n_clicks : option Z)
    (username coop_name role product session_data_obfuscated : option string)
    (w : World) :
  let '(res, w') :=
    create_coop_user json_loads n_clicks username coop_name role product
      session_data_obfuscated w in
  ((exists out, res = Ok out /\ out_create_alert_color out <> "success")
   /\ db w' = db w)
  \/ (exists session_data name coop r short seed out u l,
        deserialize_session json_loads session_data_obfuscated = Some session_data
        /\ (Session.role session_data = "admin"
            \/ Session.role session_data = "coop_approver")
        /\ username = Some name /\ coop_name = Some coop /\ role = Some r
        /\ existsb (fun v => String.eqb (User.username v) name) (users (db w))
           = false
        /\ coop_short coop = Some short
        /\ 10000 <= seed <= 20000
        /\ res = Ok out /\ out_create_alert_color out = "success"
        /\ users (db w') = users (db w) ++ [u]
        /\ u = User.mk (next_rowid (map User.id (users (db w)))) name
                 (sha256_hexdigest (short +:+ py_str_int seed)) r coop
                 (if py_truthy product then py_str product else "Not Specified")
                 (Some (short +:+ py_str_int seed))
                 (if String.eqb r "coop_approver"
                  then Some (sha256_hexdigest "cooppass") else None)
                 (if String.eqb r "coop_approver"
                  then Some (sha256_hexdigest "123456") else None)
        /\ activity_logs (db w') = activity_logs (db w) ++ [l]
        /\ Log.action l = "User Created"
        /\ Log.user_id l = Session.id session_data
        /\ Log.details l
           = "Created new '" +:+ r +:+ "' user: " +:+ name +:+ " for " +:+
             coop +:+ ". Initial Password: " +:+ short +:+ py_str_int seed
        /\ submission_batches (db w') = submission_batches (db w)
        /\ farmer_payments (db w') = farmer_payments (db w)
        /\ invoices (db w') = invoices (db w)
        /\ payment_history (db w') = payment_history (db w)).
Proof.
  unfold create_coop_user.
  destruct (truthy_int n_clicks); cbn [negb]; [|denied].
  destruct (deserialize_session json_loads session_data_obfuscated)
    as [session_data|] eqn:Hsession; [|denied].
  destruct (String.eqb (Session.role session_data) "admin" ||
            String.eqb (Session.role session_data) "coop_approver") eqn:Hrole;
    cbn [negb]; [|denied].
  destruct username as [name|]; [|denied].
  destruct coop_name as [coop|]; [|destruct name; denied].
  destruct role as [r|]; [|destruct name, coop; denied].
  unfold truthy_text.
  destruct (py_truthy (Some name) && py_truthy (Some coop) && py_truthy (Some r));
    cbn [negb]; [|denied].
  cbn [py_str]. unfold mbind at 1. unfold M_bind at 1.
  unfold get_db_connection at 1.
  destruct (existsb (fun u => String.eqb (User.username u) name) (users (db w)))
    eqn:Htaken; [denied|].
  unfold try_except.
  destruct (coop_short coop) as [short|] eqn:Hshort; [|denied].
  unfold from_option. unfold mbind at 1. unfold M_bind at 1. cbn [mret M_ret].
  unfold mbind at 1. unfold M_bind at 1. unfold with_random at 1.
  pose proof (random_randint_range 10000 20000 (rng w) ltac:(lia)) as Hseed.
  destruct (random_randint 10000 20000 (rng w)) as [seed g1]. cbn [fst] in Hseed.
  unfold mbind at 1. unfold M_bind at 1. unfold commit at 1. cbn [rng clock db].
  set (conn' := insert_user _ _ _ _ _ _ _ _ _).
  unfold mbind at 1. unfold M_bind at 1.
  destruct (log_activity_entry (Session.id session_data) "User Created"
              ("Created new '" +:+ r +:+ "' user: " +:+ name +:+ " for " +:+
               coop +:+ ". Initial Password: " +:+ short +:+ py_str_int seed)
              (mkWorld conn' g1 (clock w)))
    as (l & -> & Hluser & Hlaction & Hldetails & _).
  cbn. right.
  assert (Session.role session_data = "admin"
          \/ Session.role session_data = "coop_approver") as Hroles.
  { apply orb_prop in Hrole as [Hr|Hr]; apply String.eqb_eq in Hr; auto. }
  eexists session_data, name, coop, r, short, seed, _, _, l.
  split; [done|]. split; [exact Hroles|].
  repeat (split; [done|]). done.
Qed.

(** X16. What a login does.  Whatever the inputs, either [handle_login]
    answers with an alert, hands out no session and leaves the world as it
    was, or all of this holds: both fields are filled, the first account
    under the typed name stores the digest of the typed password, the session
    handed to the store is the obfuscated record of that account's id, name,
    role, cooperative and industry, which [deserialize_session] reads back
    whenever the JSON codec reads back what it wrote, and the only change to
    the database is one Login entry in the activity log. *)
Theorem login_outcome (n_clicks : option Z) (username password : option string)
    (w : World) :
  let '(res, w') := handle_login json_dumps n_clicks username password w in
  ((res = Ok (no_update, Some "Fields cannot be empty.")
    \/ res = Ok (update None, Some "Invalid credentials.")) /\ w' = w)
  \/ (exists name pass u session l,
        username = Some name /\ password = Some pass
        /\ name <> "" /\ pass <> ""
        /\ find (fun v => String.eqb (User.username v) name) (users (db w))
           = Some u
        /\ User.password u = sha256_hexdigest pass
        /\ session = Session.mk (User.id u) name (User.role u)
                       (User.cooperative_name u) (User.industry u)
        /\ res = Ok (update (serialize_session json_dumps (Some session)), None)
        /\ (json_loads (json_dumps session) = Some session ->
            deserialize_session json_loads
              (serialize_session json_dumps (Some session)) = Some session)
        /\ db w' = mkDB (users (db w)) (submission_batches (db w))
                     (farmer_payments (db w)) (invoices (db w))
                     (payment_history (db w)) (activity_logs (db w) ++ [l])
        /\ rng w' = rng w
        /\ Log.action l = "Login" /\ Log.user_id l = User.id u).
Proof.
  unfold handle_login, truthy_text.
  destruct username as [name|]; [|left; split; [by left|done]].
  destruct (py_truthy (Some name)) eqn:Hname; cbn [negb orb];
    [|left; split; [by left|done]].
  destruct password as [pass|]; [|left; split; [by left|done]].
  destruct (py_truthy (Some pass)) eqn:Hpass; cbn [negb];
    [|left; split; [by left|done]].
  cbn [py_str]. unfold authenticate_user.
  unfold mbind at 1. unfold M_bind at 1.
  unfold mbind at 1. unfold M_bind at 1. unfold get_db_connection at 1.
  destruct (find (fun u => String.eqb (User.username u) name) (users (db w)))
    as [u|] eqn:Hfind; [|left; split; [by right|done]].
  destruct (String.eqb (User.password u) (sha256_hexdigest pass)) eqn:Hpw;
    [|left; split; [by right|done]].
  cbn [mret M_ret]. unfold mbind at 1. unfold M_bind at 1.
  destruct (log_activity_entry (User.id u) "Login"
              ("User '" +:+ name +:+ "' logged in.") w)
    as (l & Hlog & Hluser & Hlaction & _).
  cbn [Session.id Session.username]. rewrite Hlog. cbn [mret M_ret].
  right. eexists name, pass, u, _, l.
  split; [done|]. split; [done|].
  split; [by intros ->|]. split; [by intros ->|].
  split; [done|]. split; [by apply String.eqb_eq|]. split; [reflexivity|].
  split; [done|]. split.
  { intros Hjson. cbn. by rewrite obfuscate_involutive. }
  done.
Qed.
End AccountProperties.

(** ** The seeded accounts *)

Section SeedProperties.
Context `{PyLib}.

Lemma secrets_of_found (user_id : Z) (passphrase pin : string) (w : World)
    (u : User.row) :
  find (fun v => User.id v =? user_id) (users (db w)) = Some u ->
  User.passphrase u = Some (sha256_hexdigest passphrase) ->
  User.pin u = Some (sha256_hexdigest pin) ->
  check_user_passphrase user_id passphrase w = (Ok true, w)
  /\ check_user_pin user_id pin w = (Ok true, w).
Proof.
  intros Hu Hpass Hpin. unfold check_user_passphrase, check_user_pin. run_M.
  rewrite Hu, Hpass, Hpin. cbn. by rewrite !String.eqb_refl.
Qed.

(** X17. [init_db] starts from nothing and establishes what the other
    statements assume.  Whatever the database held, afterwards it holds the
    eight seeded accounts under the rowids 1 to 8 and five empty tables;
    rowids and user names are unique and every account's cooperative name
    has a token; the approvers are one per cooperative union, in the order of
    the list, and each passes the passphrase check with cooppass and the PIN
    check with 123456, while the uploader account, which has no passphrase and no PIN, passes neither
    check with any attempt. *)
Theorem init_db_seeds_accounts (w : World) :
  exists w',
    init_db w = (Ok tt, w')
    /\ map User.id (users (db w')) = [1; 2; 3; 4; 5; 6; 7; 8]
    /\ map User.username (users (db w'))
       = ["admin"; "corecu_data"; "corecu_finance"; "lmcu_finance";
          "tamcu_finance"; "runali_finance"; "mamcu_finance"; "tanecu_finance"]
    /\ submission_batches (db w') = [] /\ farmer_payments (db w') = []
    /\ invoices (db w') = [] /\ payment_history (db w') = []
    /\ activity_logs (db w') = []
    /\ rowids_unique (db w') /\ usernames_unique (db w') /\ users_named (db w')
    /\ map User.cooperative_name
         (filter (fun u => User.role u = "coop_approver") (users (db w')))
       = COOPERATIVE_UNIONS
    /\ Forall (fun u =>
                 User.role u = "coop_approver" ->
                 check_user_passphrase (User.id u) "cooppass" w' = (Ok true, w')
                 /\ check_user_pin (User.id u) "123456" w' = (Ok true, w'))
              (users (db w'))
    /\ (forall attempt,
          check_user_passphrase 2 attempt w' = (Ok false, w')
          /\ check_user_pin 2 attempt w' = (Ok false, w')).
Proof.
  eexists. split; [reflexivity|]. cbn [db].
  split; [reflexivity|]. split; [reflexivity|].
  split; [reflexivity|]. split; [reflexivity|]. split; [reflexivity|].
  split; [reflexivity|]. split; [reflexivity|].
  split.
  { unfold rowids_unique. apply (bool_decide_unpack _). vm_compute. exact I. }
  split.
  { unfold usernames_unique. apply (bool_decide_unpack _). vm_compute. exact I. }
  split.
  { unfold users_named. apply (bool_decide_unpack _). vm_compute. exact I. }
  split; [vm_compute; reflexivity|].
  split.
  { apply Forall_forall. intros u Hu Hrole.
    apply list_elem_of_lookup in Hu as [k Hk].
    do 8 (destruct k as [|k];
      [vm_compute in Hk; injection Hk as <-;
       first [ discriminate Hrole
             | eapply secrets_of_found; [vm_compute; reflexivity|reflexivity..] ]|]).
    vm_compute in Hk. discriminate. }
  intros attempt. unfold check_user_passphrase, check_user_pin. run_M. done.
Qed.
End SeedProperties.

(** ** Administrator notes *)

(** X18. [save_admin_note] stores the first note field of the page under the
    batch of the pressed button: with a click, every batch row carrying that
    id gets that note (the empty text when the page has no note field or the
    first one is empty-valued), keeps its status and everything else, every
    other batch row and every other table is as before; in particular the
    note saved for a batch is the first field's text even when the page shows
    several.  Without a click nothing is written. *)
Theorem save_admin_note_effect (n_clicks : list (option Z)) (triggered : Z)
    (notes : list (option string)) (w : World) :
  let '(res, w') := save_admin_note n_clicks triggered notes w in
  if existsb truthy_int n_clicks
  then
    let note := match notes with Some note :: _ => note | _ => "" end in
    res = Ok (true, "Response saved successfully!", "success")
    /\ Forall2 (fun b b' =>
                  Batch.id b' = Batch.id b
                  /\ Batch.status b' = Batch.status b
                  /\ (Batch.id b = triggered ->
                      Batch.admin_notes b' = Some note
                      /\ Batch.cooperative_id b' = Batch.cooperative_id b
                      /\ Batch.filename b' = Batch.filename b
                      /\ Batch.record_count b' = Batch.record_count b
                      /\ Batch.total_amount b' = Batch.total_amount b
                      /\ Batch.submission_timestamp b'
                         = Batch.submission_timestamp b
                      /\ Batch.cooperative_notes b' = Batch.cooperative_notes b)
                  /\ (Batch.id b <> triggered -> b' = b))
               (submission_batches (db w)) (submission_batches (db w'))
    /\ users (db w') = users (db w)
    /\ farmer_payments (db w') = farmer_payments (db w)
    /\ invoices (db w') = invoices (db w)
    /\ payment_history (db w') = payment_history (db w)
    /\ activity_logs (db w') = activity_logs (db w)
    /\ rng w' = rng w
  else res = Ok (false, "", "") /\ w' = w.
Proof.
  unfold save_admin_note.
  destruct (existsb truthy_int n_clicks); cbn [negb]; [|done].
  run_M. split; [done|]. split; [|done].
  induction (submission_batches (db w)) as [|b l IH]; cbn [map]; constructor;
    [|exact IH].
  destruct (Batch.id b =? triggered) eqn:Hb; cbn.
  - apply Z.eqb_eq in Hb. repeat (split; [done|]). done.
  - apply Z.eqb_neq in Hb. repeat (split; [done|]). done.
Qed.

(** ** Rowids, user names and named accounts along any run *)


















Section ServerProperties.
Context `{PyLib}.
Variable json_dumps : Session.t -> string.
Variable json_loads : string -> option Session.t.

















End ServerProperties.

(** ** What a closed authorization modal holds *)

Section ModalProperties.
Context `{PyLib}.
Variable session_data : Session.t.

Lemma handle_pin_step_closes n_clicks pin payment_data w o w' :
  handle_pin_step n_clicks pin payment_data session_data w = (Ok o, w') ->
  out_pin_auth_modal_is_open o = update false
  \/ out_pin_auth_modal_is_open o = no_update.
Proof.
  unfold handle_pin_step.
  destruct payment_data as [data|]; [|done].
  destruct (negb (truthy_int n_clicks)); [done|].
  destruct (check_user_pin_run (Session.id session_data) pin w) as [matched Hpin].
  unfold mbind at 1. unfold M_bind at 1. rewrite Hpin.
  destruct matched; [|intros [= <- _]; by right].
  unfold mbind at 1. unfold M_bind at 1.
  destruct (log_activity _ _ _ w) as [[[]|e] w1]; [|done].
  unfold mbind, M_bind, get_db_connection, commit, from_option. cbn [db].
  destruct (find_batch _ _); [|done].
  intros [= <- _]. by left.
Qed.

Lemma closed_after_reset c :
  auth_modal_is_open c = false ->
  let c' := after_is_open_written c in
  auth_modal_is_open c' = false
  /\ payment_authorization_store c' = None
  /\ passphrase_input_value c' = "" /\ pin_input_value c' = ""
  /\ pin_input_store c' = ""
  /\ passphrase_alert c' = None /\ pin_alert c' = None
  /\ shown (passphrase_step_style c') = true
  /\ shown (authorize_button_style c') = false.
Proof. intros Hclosed. unfold after_is_open_written. rewrite Hclosed. cbn. done. Qed.

Lemma open_after_write c :
  auth_modal_is_open c = true -> after_is_open_written c = c.
Proof. intros Hopen. unfold after_is_open_written. by rewrite Hopen. Qed.

(** X20. A closed authorization modal holds no secret.  Along every run of
    browser events from the initial layout, whenever the modal is closed
    (never opened, cancelled, dismissed, or closed by a successful
    authorization) the passphrase field, the PIN field and the PIN buffer are
    empty, no batch is named for authorization, both alerts are gone, and the
    modal is back at its passphrase step with the authorize button hidden. *)
Theorem closed_modal_holds_no_secret (w0 : World) (log : list entry)
    (c : AuthClient) (w : World) :
  auth_run session_data (initial_client, w0) log (c, w) ->
  auth_modal_is_open c = false ->
  payment_authorization_store c = None
  /\ passphrase_input_value c = "" /\ pin_input_value c = ""
  /\ pin_input_store c = ""
  /\ passphrase_alert c = None /\ pin_alert c = None
  /\ shown (passphrase_step_style c) = true
  /\ shown (authorize_button_style c) = false.
Proof.
  intros Hrun.
  remember (initial_client, w0) as st0 eqn:Hst0.
  remember (c, w) as st eqn:Hst. revert c w Hst.
  induction Hrun as [st|st log st1 ev o st2 Hrun IH Hstep]; intros c w Hst Hclosed.
  { subst st. injection Hst as <- <-. cbn. done. }
  subst st2. destruct st1 as [c1 w1].
  specialize (IH Hst0 c1 w1 eq_refl).
  unfold auth_step in Hstep.
  destruct (enabled ev c1) eqn:Hen; cbn [negb] in Hstep; [|done].
  destruct ev; cbn [enabled] in Hen.
  - (* the payment button opens the modal *)
    cbn [trigger_auth_modal] in Hstep. injection Hstep as _ <- _.
    rewrite open_after_write in Hclosed by reflexivity. discriminate.
  - cbn [trigger_auth_modal] in Hstep. injection Hstep as _ <- _.
    by apply (closed_after_reset (apply_auth_modal _ c1)).
  - injection Hstep as _ <- _.
    by apply (closed_after_reset (with_is_open false c1)).
  - injection Hstep as _ <- _. apply andb_prop in Hen as [Hopen _].
    cbn in Hclosed. congruence.
  - apply andb_prop in Hen as [Hopen _].
    destruct (handle_passphrase_step _ _ _ w1) as [[o1|e] w2];
      injection Hstep as _ <- _; cbn in Hclosed; congruence.
  - apply andb_prop in Hen as [Hopen _].
    destruct (update_pin_from_dialpad _ _ _) as [[store value]|e];
      injection Hstep as _ <- _; cbn in Hclosed; congruence.
  - apply andb_prop in Hen as [Hopen _].
    destruct (handle_pin_step _ _ _ _ w1) as [[o1|e] w2] eqn:Hpin;
      [|injection Hstep as _ <- _; congruence].
    destruct (handle_pin_step_closes _ _ _ _ _ _ Hpin) as [Hupd | Hupd];
      rewrite Hupd in Hstep; injection Hstep as _ <- _.
    + apply (closed_after_reset (apply_pin o1 c1)). cbn. by rewrite Hupd.
    + cbn in Hclosed. rewrite Hupd in Hclosed. cbn in Hclosed. congruence.
Qed.
End ModalProperties.

(** ** A finalize step that finds its batch *)





(** X22. The admin recheck pass counts every row of the batch: its total is
    the number of rows carrying the batch id, and its failure count lies
    between the number of rows that entered the pass failed and the total. *)
Theorem recheck_counts_add_up (conn : Database) (batch_id : Z) (g : Rng) :
  let '((_, total_count, failed_count), _) := admin_recheck_pass conn batch_id g in
  let batch_rows := filter (fun p => Payment.batch_id p = batch_id)
                           (farmer_payments conn) in
  total_count = Z.of_nat (length batch_rows)
  /\ Z.of_nat (length (filter (fun p => Payment.verification_status p = Some "failed")
                              batch_rows)) <= failed_count
  /\ failed_count <= total_count.
Proof.
  unfold admin_recheck_pass.
  pose proof (recheck_loop_failed (select_verification conn batch_id) g) as Hcounts.
  destruct (recheck_loop (select_verification conn batch_id) g)
    as [[[us total] failed] g'].
  destruct Hcounts as (Htotal & Hfailed & Hle).
  unfold select_verification in Htotal, Hfailed. rewrite length_map in Htotal.
  split; [done|]. split; [|done].
  etransitivity; [|exact Hfailed].
  apply Nat2Z.inj_le.
  generalize (filter (fun p => Payment.batch_id p = batch_id) (farmer_payments conn)).
  induction l as [|p l IHl]; [done|].
  rewrite map_cons, !filter_cons. cbn [fst snd].
  destruct (decide (Payment.verification_status p = Some "failed")); cbn [length]; lia.
Qed.

(** * The further properties at the reference scenario *)

Lemma session_round_trip_witness :
  reference_loads (reference_dumps approver_session) = Some approver_session
  /\ deserialize_session reference_loads
       (serialize_session reference_dumps (Some approver_session))
     = Some approver_session.
Proof.
  assert (reference_loads (reference_dumps approver_session)
          = Some approver_session) as Hjson by reflexivity.
  split; [exact Hjson|].
  exact (proj1 (session_round_trip reference_dumps reference_loads
                  approver_session Hjson)).
Defined.

Lemma dialpad_keeps_six_witness :
  existsb truthy_int [Some 1] = true
  /\ String.length "7" = 1%nat
  /\ (String.length "123456" <= 6)%nat
  /\ exists new_pin,
       update_pin_from_dialpad [Some 1] (Some "7") (Some "123456")
       = Ok (new_pin, new_pin)
       /\ (String.length new_pin <= 6)%nat.
Proof.
  assert (existsb truthy_int [Some 1] = true) as Hclicks by reflexivity.
  assert (String.length "7" = 1%nat) as Hbutton by reflexivity.
  assert (String.length "123456" <= 6)%nat as Hlen by (cbn; lia).
  split; [exact Hclicks|]. split; [exact Hbutton|]. split; [exact Hlen|].
  destruct (dialpad_keeps_six [Some 1] "7" "123456" Hclicks Hbutton Hlen)
    as (new_pin & Hrun & Hsix & _).
  exists new_pin. split; [exact Hrun|exact Hsix].
Defined.

Lemma dialpad_backspace_undoes_witness :
  existsb truthy_int [Some 1] = true
  /\ String.length "7" = 1%nat
  /\ "7" <> "C" /\ "7" <> "<"
  /\ (String.length "123" < 6)%nat
  /\ exists entered,
       update_pin_from_dialpad [Some 1] (Some "7") (Some "123")
       = Ok (entered, entered)
       /\ update_pin_from_dialpad [Some 1] (Some "<") (Some entered)
          = Ok ("123", "123").
Proof.
  assert (existsb truthy_int [Some 1] = true) as Hclicks by reflexivity.
  assert (String.length "7" = 1%nat) as Hbutton by reflexivity.
  assert ("7" <> "C") as HC by discriminate.
  assert ("7" <> "<") as HB by discriminate.
  assert (String.length "123" < 6)%nat as Hlen by (cbn; lia).
  split; [exact Hclicks|]. split; [exact Hbutton|]. split; [exact HC|].
  split; [exact HB|]. split; [exact Hlen|].
  destruct (dialpad_backspace_undoes [Some 1] "7" "123" Hclicks Hbutton HC HB Hlen)
    as (entered & Hrun & _ & Hback).
  exists entered. split; [exact Hrun|exact Hback].
Defined.

Lemma pin_step_rejects_without_writing_witness :
  (forall u,
     find (fun u => User.id u =? Session.id approver_session)
          (users (db world_submitted)) = Some u ->
     User.pin u <> Some (sha256_hexdigest (PyLib := reference_lib) "000000"))
  /\ snd (handle_pin_step (H := reference_lib) (Some 1) "000000"
            (Some (mkPaymentData 1 "batch_payment")) approver_session
            world_submitted) = world_submitted.
Proof.
  assert (forall u,
            find (fun u => User.id u =? Session.id approver_session)
                 (users (db world_submitted)) = Some u ->
            User.pin u <> Some (sha256_hexdigest (PyLib := reference_lib) "000000"))
    as Hno.
  { intros u Hu. vm_compute in Hu. injection Hu as <-. discriminate. }
  split; [exact Hno|].
  exact (proj1 (pin_step_rejects_without_writing (H := reference_lib) (Some 1)
                  "000000" (Some (mkPaymentData 1 "batch_payment"))
                  approver_session world_submitted Hno)).
Defined.

Lemma authorization_touches_one_batch_witness :
  truthy_int (Some 1) = true
  /\ find (fun u => User.id u =? Session.id approver_session)
          (users (db world_submitted)) = Some corecu_approver
  /\ User.pin corecu_approver
     = Some (sha256_hexdigest (PyLib := reference_lib) "123456")
  /\ farmer_payments
       (db (snd (handle_pin_step (H := reference_lib) (Some 1) "123456"
                   (Some (mkPaymentData 1 "batch_payment")) approver_session
                   world_submitted)))
     = farmer_payments (db world_submitted).
Proof.
  assert (truthy_int (Some 1) = true) as Hclicks by reflexivity.
  assert (find (fun u => User.id u =? Session.id approver_session)
               (users (db world_submitted)) = Some corecu_approver) as Hu.
  { vm_compute. reflexivity. }
  assert (User.pin corecu_approver
          = Some (sha256_hexdigest (PyLib := reference_lib) "123456")) as Hpin.
  { reflexivity. }
  split; [exact Hclicks|]. split; [exact Hu|]. split; [exact Hpin|].
  destruct (authorization_touches_one_batch (H := reference_lib) (Some 1) "123456"
              (mkPaymentData 1 "batch_payment") approver_session world_submitted
              corecu_approver Hclicks Hu Hpin)
    as (_ & _ & Hrows & _).
  exact Hrows.
Defined.






Lemma saved_credentials_are_checked_witness :
  find (fun v => User.id v =? 2) (users (db world_start)) = Some corecu_approver
  /\ exists w',
       update_approver_credentials (H := reference_lib) 2 "newpass1"
         "a longer phrase" "654321" world_start = (Ok tt, w')
       /\ check_user_pin (H := reference_lib) 2 "654321" w' = (Ok true, w').
Proof.
  assert (find (fun v => User.id v =? 2) (users (db world_start))
          = Some corecu_approver) as Hu by reflexivity.
  split; [exact Hu|].
  destruct (saved_credentials_are_checked (H := reference_lib) 2 "newpass1"
              "a longer phrase" "654321" world_start corecu_approver Hu)
    as (w' & u' & Hrun & _ & _ & _ & Hpin & _).
  exists w'. split; [exact Hrun|exact Hpin].
Defined.

Lemma cancelled_replayed : cancelled = Some (cancelled_log, cancelled_end).
Proof. vm_compute. reflexivity. Qed.

Lemma closed_modal_holds_no_secret_witness :
  auth_run (H := reference_lib) approver_session (initial_client, world_start)
    cancelled_log (fst cancelled_end, snd cancelled_end)
  /\ auth_modal_is_open (fst cancelled_end) = false
  /\ passphrase_input_value (fst cancelled_end) = ""
  /\ pin_input_store (fst cancelled_end) = "".
Proof.
  assert (auth_run (H := reference_lib) approver_session
            (initial_client, world_start) cancelled_log
            (fst cancelled_end, snd cancelled_end)) as Hrun.
  { rewrite <- surjective_pairing.
    apply (play_sound (H := reference_lib) approver_session _ cancelled_events
             (initial_client, world_start) []); [constructor|].
    exact cancelled_replayed. }
  assert (auth_modal_is_open (fst cancelled_end) = false) as Hclosed.
  { vm_compute. reflexivity. }
  split; [exact Hrun|]. split; [exact Hclosed|].
  destruct (closed_modal_holds_no_secret (H := reference_lib) approver_session
              world_start cancelled_log (fst cancelled_end) (snd cancelled_end)
              Hrun Hclosed) as (_ & Hpass & _ & Hpin & _).
  split; [exact Hpass|exact Hpin].
Defined.

